(** * Analytics use cases of the finance backend

    Shallow embedding of
    - [domain/usecases/cashflow_forecast.py]  ([CashflowForecastUC.execute]),
    - [domain/usecases/detect_anomalies.py]   ([DetectAnomaliesUC.execute],
                                               [_parse_period_days]),
    - [domain/usecases/create_collection_reminder.py]
                                              ([CreateCollectionReminderUC.execute]),
    - [infra/dynamo_repo.py]                  ([DynamoRepo]),
    - [shared/auth.py], [shared/responses.py] and the handlers of
      [adapters/handlers/] for the cashflow forecast, the action list and
      the collection reminder.

    Modelling choices.
    - Sales amounts are rationals [Q]: the statistics are exact, as for the
      real numbers the spec asks for.  The sample standard deviation needs a
      square root, so it and the z-scores live in [R] ([Q2R] injects).
    - Python's [round(x, 2)] is round-half-to-even of [100 * x], divided by 100.
    - Python strings are Rocq [string]s whose bytes are the code points
      U+0000..U+00FF; whitespace is [str.isspace] on them: 9..13, 28..32,
      133 and 160.
    - [int(str)] keeps CPython's default limit of 4300 digits.
    - The DynamoDB table is read by one [Scan] request per call: the items
      past its first 1 MB page are never read.
    - The repository is an effect: a use case is a tree of repository calls
      ([Prog]); [run] interprets it against a concrete repository and records
      the calls made.  An exception is a value of [exn]; Python's
      [except ...: log; raise] handlers re-raise the very same exception. *)

From Stdlib Require Import ZArith QArith Qround Qabs List Bool Lia.
From Stdlib Require Import Ascii String.
From Stdlib Require Import Reals Qreals.
From Stdlib Require Import Sorted Permutation.
From Stdlib Require Import Lra.
(** [lra_R] is linear arithmetic over [R]; [lra] below is the one over [Q]. *)
Ltac lra_R := lra.
From Stdlib Require Import Lqa.
Import ListNotations.
Open Scope Q_scope.
Open Scope string_scope.

(* ------------------------------------------------------------------ *)
(** ** Exceptions and the repository effect *)

(** Python exceptions.  The use cases raise [ValueError] (the spec's
    ValidationError and InsufficientDataError); a repository may raise
    anything, represented by [RepoError]. *)
Inductive exn : Type :=
| ValueError (msg : string)
| RepoError (cause : string).

(** A sales record [{"date": ..., "amount": ...}]. *)
Record SalePoint : Type := mkSale {
  date : string;
  amount : Q
}.

(** A Python dict with string values, in insertion order. *)
Definition Payload := list (string * string).

(** A use case as a tree of repository calls. *)
Inductive Prog (A : Type) : Type :=
| Ret (a : A)
| Raise (e : exn)
| GetSalesSeries (days : Z) (k : list SalePoint -> Prog A)
| CreateAgentAction (action : string) (payload : Payload) (performed_by : string)
    (k : string -> Prog A).

Arguments Ret {A} a.
Arguments Raise {A} e.
Arguments GetSalesSeries {A} days k.
Arguments CreateAgentAction {A} action payload performed_by k.

(** [try: p  except E as e: handler e]: exceptions raised by [p], including
    those raised by the repository inside [p], go to [handler]. *)
Fixpoint catch {A} (p : Prog A) (handler : exn -> Prog A) : Prog A :=
  match p with
  | Ret a => Ret a
  | Raise e => handler e
  | GetSalesSeries d k => GetSalesSeries d (fun s => catch (k s) handler)
  | CreateAgentAction a pl pb k =>
      CreateAgentAction a pl pb (fun r => catch (k r) handler)
  end.

(** [except ValueError as e: logger.warning(...); raise]
    [except Exception as e: logger.error(...); raise] *)
Definition log_and_reraise {A} (e : exn) : Prog A := Raise e.

(** The two repository protocols ([SalesRepository], [ActionRepository]):
    each call either returns or raises. *)
Record Repo : Type := mkRepo {
  get_sales_series : Z -> exn + list SalePoint;
  create_agent_action : string -> Payload -> string -> exn + string
}.

(** Calls observed at the repository. *)
Inductive call : Type :=
| CallGetSales (days : Z)
| CallCreateAction (action : string) (payload : Payload) (performed_by : string).

(** Running a use case against a repository: the calls it makes, in order,
    and its outcome (an exception or a value). *)
Fixpoint run {A} (r : Repo) (p : Prog A) : list call * (exn + A) :=
  match p with
  | Ret a => ([], inr a)
  | Raise e => ([], inl e)
  | GetSalesSeries d k =>
      match get_sales_series r d with
      | inl e => ([CallGetSales d], inl e)
      | inr s => let '(tr, o) := run r (k s) in (CallGetSales d :: tr, o)
      end
  | CreateAgentAction a pl pb k =>
      match create_agent_action r a pl pb with
      | inl e => ([CallCreateAction a pl pb], inl e)
      | inr id => let '(tr, o) := run r (k id) in (CallCreateAction a pl pb :: tr, o)
      end
  end.

(* ------------------------------------------------------------------ *)
(** ** Numbers: [statistics.mean], [round(x, 2)] *)

Definition sumQ (l : list Q) : Q := fold_right Qplus 0 l.

(** [statistics.mean] (on a non-empty list). *)
Definition mean (l : list Q) : Q := sumQ l / inject_Z (Z.of_nat (List.length l)).

(** Round half to even, the rule of Python's [round]. *)
Definition round_half_even (x : Q) : Z :=
  let f := Qfloor x in
  let d := x - inject_Z f in
  if Qlt_le_dec d (1 # 2) then f
  else if Qeq_dec d (1 # 2) then (if Z.even f then f else f + 1)%Z
  else (f + 1)%Z.

(** [round(x, 2)]. *)
Definition round2 (x : Q) : Q := round_half_even (x * 100) # 100.

(* ------------------------------------------------------------------ *)
(** ** [CashflowForecastUC.execute] *)

Record ForecastResult : Type := mkForecast {
  forecast_days : Z;
  average_daily_cashflow : Q;
  total_forecast : Q;
  historical_period_days : Z
}.

Definition msg_no_history := "No historical sales data available for forecast".

Definition forecast_execute (horizon_days : Z) : Prog ForecastResult :=
  catch
    (let lookback_days := Z.max (horizon_days * 2) 60 in
     GetSalesSeries lookback_days (fun sales_series =>
       match sales_series with
       | [] => Raise (ValueError msg_no_history)
       | _ =>
           let amounts := map amount sales_series in
           let avg_daily := match amounts with [] => 0 | _ => mean amounts end in
           let total_forecast := avg_daily * inject_Z horizon_days in
           Ret {| forecast_days := horizon_days;
                  average_daily_cashflow := round2 avg_daily;
                  total_forecast := round2 total_forecast;
                  historical_period_days := Z.of_nat (List.length sales_series) |}
       end))
    log_and_reraise.

(** A repository whose sales table holds [s] for every window asked. *)
Definition sales_repo (s : list SalePoint) : Repo :=
  {| get_sales_series := fun _ => inr s;
     create_agent_action := fun _ _ _ => inr "action-1" |}.


(* ------------------------------------------------------------------ *)
(** ** Python strings: [str.strip], [int(str)], slicing *)

(** [str.isspace] on the code points U+0000..U+00FF (a byte [n] is the code
    point [n]): tab, LF, VT, FF, CR, the separators 28..31, space, NEL
    (U+0085) and NO-BREAK SPACE (U+00A0). *)
Definition is_space (c : ascii) : bool :=
  let n := nat_of_ascii c in
  ((9 <=? n) && (n <=? 13))%nat || ((28 <=? n) && (n <=? 32))%nat
  || (n =? 133)%nat || (n =? 160)%nat.

Fixpoint lstrip_l (l : list ascii) : list ascii :=
  match l with
  | [] => []
  | c :: r => if is_space c then lstrip_l r else l
  end.

(** [s.strip()] *)
Definition strip (s : string) : string :=
  string_of_list_ascii (rev (lstrip_l (rev (lstrip_l (list_ascii_of_string s))))).

Definition digit_value (c : ascii) : option Z :=
  let n := nat_of_ascii c in
  if ((48 <=? n) && (n <=? 57))%nat then Some (Z.of_nat n - 48)%Z else None.

(** The digits of a base-10 [int] literal: ASCII digits, a single [_] allowed
    between two digits.  [after_digit] says whether the last character read
    was a digit. *)
Fixpoint parse_digits (l : list ascii) (acc : Z) (after_digit : bool) : option Z :=
  match l with
  | [] => if after_digit then Some acc else None
  | c :: r =>
      match digit_value c with
      | Some d => parse_digits r (acc * 10 + d)%Z true
      | None =>
          if Ascii.eqb c "_"%char && after_digit then parse_digits r acc false
          else None
      end
  end.

(** A base-10 [int] literal for a [str] [s]: surrounding whitespace is
    ignored, an optional sign, then digits.  [None]: not a literal. *)
Definition py_int_literal (s : string) : option Z :=
  match list_ascii_of_string (strip s) with
  | "+"%char :: r => parse_digits r 0 false
  | "-"%char :: r => option_map Z.opp (parse_digits r 0 false)
  | l => parse_digits l 0 false
  end.

(** The literal without surrounding whitespace and sign. *)
Definition int_literal_body (s : string) : list ascii :=
  match list_ascii_of_string (strip s) with
  | "+"%char :: r => r
  | "-"%char :: r => r
  | l => l
  end.

Fixpoint count_digits (l : list ascii) : nat :=
  match l with
  | [] => O
  | c :: r => match digit_value c with Some _ => S (count_digits r) | None => count_digits r end
  end.

(** [sys.get_int_max_str_digits()] by default. *)
Definition int_max_str_digits : nat := 4300.

(** [int(s)] for a [str] [s] (base 10).  CPython refuses a literal of more
    than [sys.get_int_max_str_digits()] digits (leading zeros included,
    underscores not).  [None] is the [ValueError]. *)
Definition py_int (s : string) : option Z :=
  match py_int_literal s with
  | Some n => if (count_digits (int_literal_body s) <=? int_max_str_digits)%nat
              then Some n else None
  | None => None
  end.

(** [s.endswith("d")] *)
Definition endswith_d (s : string) : bool :=
  match rev (list_ascii_of_string s) with
  | c :: _ => Ascii.eqb c "d"%char
  | [] => false
  end.

(** [s[5:-1]] *)
Definition slice_5_m1 (s : string) : string :=
  substring 5 (String.length s - 6) s.

(* ------------------------------------------------------------------ *)
(** ** [DetectAnomaliesUC._parse_period_days]

    The result is the day count and the warnings the function logs. *)

Definition msg_unrecognized (p : string) :=
  "Unrecognized period format '" ++ p ++ "', defaulting to 60 days".
Definition msg_parse_failed (p : string) :=
  "Failed to parse period '" ++ p ++ "', defaulting to 60 days".

Definition parse_period_days (period : string) : Z * list string :=
  if prefix "last_" period && endswith_d period then
    match py_int (slice_5_m1 period) with
    | Some n => (n, [])
    | None => (60%Z, [msg_parse_failed period])
    end
  else (60%Z, [msg_unrecognized period]).

(** The spec's reading of a period: [last_<N>d] with [N] a non-empty run of
    decimal digits, and its value. *)
Fixpoint decimal_value (l : list ascii) (acc : Z) : option Z :=
  match l with
  | [] => Some acc
  | c :: r =>
      match digit_value c with
      | Some d => decimal_value r (acc * 10 + d)%Z
      | None => None
      end
  end.


(* ------------------------------------------------------------------ *)
(** ** Statistics of [DetectAnomaliesUC.execute] *)

(** [set(amounts)], by numeric equality. *)
Fixpoint distinct_values (l : list Q) : list Q :=
  match l with
  | [] => []
  | x :: r =>
      let d := distinct_values r in
      if existsb (Qeq_bool x) d then d else x :: d
  end.

(** [statistics.variance]: sample variance, divisor [n - 1]. *)
Definition variance (l : list Q) : Q :=
  let m := mean l in
  sumQ (map (fun x => (x - m) * (x - m)) l)
  / inject_Z (Z.of_nat (List.length l) - 1).

(** [statistics.stdev] *)
Definition stdev (l : list Q) : R := sqrt (Q2R (variance l)).

(** [round(x, 2)] for a real [x]. *)
Definition round_half_even_R (x : R) : Z :=
  let f := Int_part x in
  let d := frac_part x in
  if Rlt_dec d (1 / 2) then f
  else if Req_EM_T d (1 / 2) then (if Z.even f then f else f + 1)%Z
  else (f + 1)%Z.

Definition round2_R (x : R) : Q := round_half_even_R (x * 100) # 100.

Inductive deviation_kind : Type := High | Low.

(** An anomaly record [{"date", "amount", "z_score", "deviation"}]. *)
Module AnomalyPoint.
Record t : Type := mk {
  date : string;
  amount : Q;
  z_score : Q;
  deviation : deviation_kind
}.
End AnomalyPoint.

Record AnomalyResult : Type := mkAnomalyResult {
  period : string;
  total_days : Z;
  mean_sales : Q;
  std_dev : Q;
  anomalies : list AnomalyPoint.t;
  anomaly_count : Z
}.

(** [z_score = (amount - mean_val) / std_dev if std_dev > 0 else 0.0] *)
Definition z_score_of (mean_val : Q) (sd : R) (a : Q) : R :=
  if Rlt_dec 0 sd then ((Q2R a - Q2R mean_val) / sd)%R else 0%R.

(** One iteration of the [for sale in sales_series] loop. *)
Definition classify (threshold mean_val : Q) (sd : R) (sale : SalePoint)
  : option AnomalyPoint.t :=
  let z := z_score_of mean_val sd (amount sale) in
  if Rlt_dec (Q2R threshold) (Rabs z) then
    Some {| AnomalyPoint.date := date sale;
            AnomalyPoint.amount := round2 (amount sale);
            AnomalyPoint.z_score := round2_R z;
            AnomalyPoint.deviation := if Rlt_dec 0 z then High else Low |}
  else None.

(** The loop: records are appended in series order. *)
Fixpoint collect_anomalies (f : SalePoint -> option AnomalyPoint.t)
    (sales : list SalePoint) : list AnomalyPoint.t :=
  match sales with
  | [] => []
  | sale :: rest =>
      match f sale with
      | Some a => a :: collect_anomalies f rest
      | None => collect_anomalies f rest
      end
  end.

(** The sort key [abs(x["z_score"])]. *)
Definition sort_key (a : AnomalyPoint.t) : Q := Qabs (AnomalyPoint.z_score a).

(** [anomalies.sort(key=..., reverse=True)]: Python's sort is stable, also
    with [reverse=True], so equal keys keep their order.  Insertion sort:
    [x] goes before the first element whose key is not larger. *)
Fixpoint insert_desc (x : AnomalyPoint.t) (l : list AnomalyPoint.t) :=
  match l with
  | [] => [x]
  | y :: r => if Qle_bool (sort_key y) (sort_key x) then x :: y :: r
              else y :: insert_desc x r
  end.

Fixpoint sort_desc (l : list AnomalyPoint.t) : list AnomalyPoint.t :=
  match l with
  | [] => []
  | x :: r => insert_desc x (sort_desc r)
  end.

Definition msg_insufficient :=
  "Insufficient data for anomaly detection (need at least 2 days)".

(** [DetectAnomaliesUC(repo, threshold).execute(period)] *)
Definition detect_execute (threshold : Q) (per : string) : Prog AnomalyResult :=
  catch
    (let days := fst (parse_period_days per) in
     GetSalesSeries days (fun sales_series =>
       if (List.length sales_series <? 2)%nat then Raise (ValueError msg_insufficient)
       else
         let amounts := map amount sales_series in
         let mean_val := mean amounts in
         if (List.length (distinct_values amounts) <? 2)%nat then
           Ret {| period := per;
                  total_days := Z.of_nat (List.length sales_series);
                  mean_sales := round2 mean_val;
                  std_dev := 0;
                  anomalies := [];
                  anomaly_count := 0 |}
         else
           let sd := stdev amounts in
           let found := collect_anomalies (classify threshold mean_val sd) sales_series in
           let sorted := sort_desc found in
           Ret {| period := per;
                  total_days := Z.of_nat (List.length sales_series);
                  mean_sales := round2 mean_val;
                  std_dev := round2_R sd;
                  anomalies := sorted;
                  anomaly_count := Z.of_nat (List.length sorted) |}))
    log_and_reraise.

(* ------------------------------------------------------------------ *)
(** ** [CreateCollectionReminderUC.execute] *)

(** A calendar date [(year, month, day)]. *)
Definition Date := (Z * Z * Z)%type.

(** What the use case takes from its Python environment: the UTC clock
    ([datetime.utcnow().date()]) and [datetime.fromisoformat], which either
    returns (true) or raises [ValueError] (false). *)
Record Env : Type := mkEnv {
  utc_today : Date;
  fromisoformat : string -> bool
}.

Fixpoint digits_rev (fuel : nat) (n : Z) : list ascii :=
  match fuel with
  | O => []
  | S f =>
      if (n =? 0)%Z then []
      else ascii_of_nat (48 + Z.to_nat (n mod 10)) :: digits_rev f (n / 10)
  end.

(** ["%0<w>d" % n] for [0 <= n < 10^10]. *)
Definition zero_pad (w : nat) (n : Z) : string :=
  let ds := rev (digits_rev 10 n) in
  let ds := match ds with [] => ["0"%char] | _ => ds end in
  string_of_list_ascii (repeat "0"%char (w - List.length ds) ++ ds).

(** [date.isoformat()]: ["%04d-%02d-%02d"]. *)
Definition date_isoformat (d : Date) : string :=
  let '(y, m, dd) := d in
  zero_pad 4 y ++ "-" ++ zero_pad 2 m ++ "-" ++ zero_pad 2 dd.

(** The calendar-date form [YYYY-MM-DD], which [datetime.fromisoformat]
    accepts in every Python version (it accepts more forms besides, with a
    time part).  A concrete parser to run the use case on. *)
Definition days_in_month (y m : Z) : Z :=
  if (m =? 2)%Z then
    (if ((y mod 4 =? 0) && negb (y mod 100 =? 0) || (y mod 400 =? 0))%Z then 29 else 28)
  else if existsb (Z.eqb m) [4; 6; 9; 11]%Z then 30 else 31.

Definition iso_calendar_date (s : string) : bool :=
  match list_ascii_of_string s with
  | [y1; y2; y3; y4; s1; m1; m2; s2; d1; d2] =>
      match decimal_value [y1; y2; y3; y4] 0, decimal_value [m1; m2] 0,
            decimal_value [d1; d2] 0 with
      | Some y, Some m, Some d =>
          Ascii.eqb s1 "-" && Ascii.eqb s2 "-" && (1 <=? y)%Z
          && (1 <=? m)%Z && (m <=? 12)%Z && (1 <=? d)%Z && (d <=? days_in_month y m)%Z
      | _, _, _ => false
      end
  | _ => false
  end.

Definition msg_customer_required := "customer_id is required and cannot be empty".
Definition msg_performed_by_required := "performed_by is required and cannot be empty".
Definition msg_invalid_date (d : string) :=
  "Invalid remind_date format: " ++ d ++ ". Expected ISO format (YYYY-MM-DD)".

(** [not s or not s.strip()] *)
Definition is_blank (s : string) : bool := (s =? "") || (strip s =? "").

(** [if not remind_date: remind_date = datetime.utcnow().date().isoformat()];
    [not remind_date] holds for [None] and [""]. *)
Definition default_remind_date (env : Env) (remind_date : option string) : string :=
  match remind_date with
  | Some d => if d =? "" then date_isoformat (utc_today env) else d
  | None => date_isoformat (utc_today env)
  end.

(** An environment for running the use case on concrete inputs. *)
Definition env_20251020 : Env :=
  {| utc_today := (2025, 10, 20)%Z; fromisoformat := iso_calendar_date |}.

(** [CreateCollectionReminderUC(repo).execute(customer_id, performed_by,
    invoice_id, remind_date)] in environment [env]; the result is the
    action id. *)
Definition reminder_execute (env : Env) (customer_id performed_by : string)
    (invoice_id remind_date : option string) : Prog string :=
  if is_blank customer_id then Raise (ValueError msg_customer_required)
  else if is_blank performed_by then Raise (ValueError msg_performed_by_required)
  else
    let remind_date := default_remind_date env remind_date in
    if negb (fromisoformat env remind_date) then
      Raise (ValueError (msg_invalid_date remind_date))
    else
      catch
        (let payload := [("customer_id", strip customer_id); ("remind_date", remind_date)] in
         let payload :=
           match invoice_id with
           | Some i => if i =? "" then payload
                       else (payload ++ [("invoice_id", strip i)])%list
           | None => payload
           end in
         CreateAgentAction "collection_reminder" payload (strip performed_by)
           (fun action_id => Ret action_id))
        log_and_reraise.

(* ------------------------------------------------------------------ *)
(** ** Auxiliary notions for the statements *)

(** Descending order of the sort key, and membership in one key's group. *)
Definition key_desc (a b : AnomalyPoint.t) : Prop := sort_key b <= sort_key a.

Definition same_key (k : Q) (a : AnomalyPoint.t) : bool := Qeq_bool (sort_key a) k.

(** The sum of squared deviations from [m], numerator of [variance]. *)
Definition sq_devs (m : Q) (l : list Q) : Q := sumQ (map (fun x => (x - m) * (x - m)) l).

(* ------------------------------------------------------------------ *)
(** ** Python values of the repository and the handlers *)

(** [d.get(k)] on a dict held as an association list (keys are unique). *)
Fixpoint assoc {A} (k : string) (l : list (string * A)) : option A :=
  match l with
  | [] => None
  | (k', v) :: r => if String.eqb k k' then Some v else assoc k r
  end.

(** [try: m ... ] of a computation that returns or raises. *)
Definition sbind {E A B} (m : E + A) (k : A -> E + B) : E + B :=
  match m with
  | inl e => inl e
  | inr a => k a
  end.

Definition hex_digit (n : nat) : ascii :=
  ascii_of_nat (if (n <? 10)%nat then 48 + n else 87 + n).

Definition dquote : ascii := ascii_of_nat 34.
Definition backslash : ascii := ascii_of_nat 92.

(** One character of [repr(s)] under the quote [quote]; bytes 128..255 are
    the code points U+0080..U+00FF, of which U+0080..U+00A0 and U+00AD are
    not printable. *)
Definition repr_char (quote c : ascii) : list ascii :=
  let n := nat_of_ascii c in
  if Ascii.eqb c quote || Ascii.eqb c backslash then [backslash; c]
  else if (n =? 9)%nat then [backslash; "t"%char]
  else if (n =? 10)%nat then [backslash; "n"%char]
  else if (n =? 13)%nat then [backslash; "r"%char]
  else if ((n <? 32) || (n =? 127) || ((128 <=? n) && (n <=? 160)) || (n =? 173))%nat
  then [backslash; "x"%char; hex_digit (n / 16); hex_digit (n mod 16)]
  else [c].

(** [repr(s)]: single quotes, unless [s] holds a single quote and no double one. *)
Definition py_repr (s : string) : string :=
  let l := list_ascii_of_string s in
  let quote := if existsb (Ascii.eqb "'"%char) l && negb (existsb (Ascii.eqb dquote) l)
               then dquote else "'"%char in
  string_of_list_ascii (quote :: (flat_map (repr_char quote) l ++ [quote])%list).

(** The message of the [ValueError] of [int(s)] ([%.200R]). *)
Definition msg_int_literal (s : string) :=
  "invalid literal for int() with base 10: " ++ substring 0 200 (py_repr s).

(** [str(n)] for [0 <= n]. *)
Definition nat_decimal (n : nat) : string :=
  match rev (digits_rev (S n) (Z.of_nat n)) with
  | [] => "0"
  | ds => string_of_list_ascii ds
  end.

(** The message of the [ValueError] of [int(s)] for a literal of [n] digits
    over the limit (CPython 3.12 and later). *)
Definition msg_int_limit (n : nat) :=
  "Exceeds the limit (4300 digits) for integer string conversion: value has "
  ++ nat_decimal n ++ " digits; use sys.set_int_max_str_digits() to increase the limit".

(** The message of the [ValueError] of [int(s)]: CPython checks the literal
    first, its number of digits next. *)
Definition msg_int (s : string) :=
  match py_int_literal s with
  | Some _ => msg_int_limit (count_digits (int_literal_body s))
  | None => msg_int_literal s
  end.

(** The message of the [ValueError] of [float(s)]. *)
Definition msg_float (s : string) := "could not convert string to float: " ++ py_repr s.

(** [s.split()]: the maximal runs of non-whitespace characters. *)
Fixpoint split_ws_l (l : list ascii) (cur : list ascii) : list (list ascii) :=
  match l with
  | [] => match cur with [] => [] | _ => [rev cur] end
  | c :: r =>
      if is_space c then
        match cur with
        | [] => split_ws_l r []
        | _ => rev cur :: split_ws_l r []
        end
      else split_ws_l r (c :: cur)
  end.

Definition py_split (s : string) : list string :=
  map string_of_list_ascii (split_ws_l (list_ascii_of_string s) []).

(** [s.split(sep, 1)] *)
Fixpoint split_once_l (sep : ascii) (l : list ascii) : option (list ascii * list ascii) :=
  match l with
  | [] => None
  | c :: r =>
      if Ascii.eqb c sep then Some ([], r)
      else option_map (fun '(a, b) => (c :: a, b)) (split_once_l sep r)
  end.

Definition split_once (sep : ascii) (s : string) : list string :=
  match split_once_l sep (list_ascii_of_string s) with
  | None => [s]
  | Some (a, b) => [string_of_list_ascii a; string_of_list_ascii b]
  end.

(** [a < b] on [str]: code points, lexicographically. *)
Fixpoint str_ltb_l (a b : list ascii) : bool :=
  match a, b with
  | _, [] => false
  | [], _ :: _ => true
  | x :: a', y :: b' =>
      if (nat_of_ascii x <? nat_of_ascii y)%nat then true
      else if (nat_of_ascii x =? nat_of_ascii y)%nat then str_ltb_l a' b'
      else false
  end.

Definition str_ltb (a b : string) : bool :=
  str_ltb_l (list_ascii_of_string a) (list_ascii_of_string b).

(* ------------------------------------------------------------------ *)
(** ** [datetime]: [strptime(s, "%Y-%m-%d")], [toordinal], [timedelta] *)

Definition digit_in (lo hi : nat) (c : ascii) : bool :=
  ((lo <=? nat_of_ascii c) && (nat_of_ascii c <=? hi))%nat.

Definition dval (c : ascii) : Z := (Z.of_nat (nat_of_ascii c) - 48)%Z.

(** The group [(?P<m>1[0-2]|0[1-9]|[1-9])]: the alternatives matching at the
    start of [l], in the order the regex tries them, with value and rest. *)
Definition month_alts (l : list ascii) : list (Z * list ascii) :=
  ((match l with
    | c1 :: c2 :: r => if Ascii.eqb c1 "1" && digit_in 48 50 c2 then [(10 + dval c2, r)%Z] else []
    | _ => [] end)
   ++ (match l with
       | c1 :: c2 :: r => if Ascii.eqb c1 "0" && digit_in 49 57 c2 then [(dval c2, r)] else []
       | _ => [] end)
   ++ (match l with
       | c1 :: r => if digit_in 49 57 c1 then [(dval c1, r)] else []
       | _ => [] end))%list.

(** The group [(?P<d>3[0-1]|[1-2]\d|0[1-9]|[1-9]| [1-9])]. *)
Definition day_alts (l : list ascii) : list (Z * list ascii) :=
  ((match l with
    | c1 :: c2 :: r => if Ascii.eqb c1 "3" && digit_in 48 49 c2 then [(30 + dval c2, r)%Z] else []
    | _ => [] end)
   ++ (match l with
       | c1 :: c2 :: r => if digit_in 49 50 c1 && digit_in 48 57 c2
                          then [(10 * dval c1 + dval c2, r)%Z] else []
       | _ => [] end)
   ++ (match l with
       | c1 :: c2 :: r => if Ascii.eqb c1 "0" && digit_in 49 57 c2 then [(dval c2, r)] else []
       | _ => [] end)
   ++ (match l with
       | c1 :: r => if digit_in 49 57 c1 then [(dval c1, r)] else []
       | _ => [] end)
   ++ (match l with
       | c1 :: c2 :: r => if Ascii.eqb c1 " " && digit_in 49 57 c2 then [(dval c2, r)] else []
       | _ => [] end))%list.

(** Backtracking over the month alternatives: the first one followed by
    [-] and a day; the day group ends the pattern, so its first matching
    alternative is taken. *)
Fixpoint first_month_day (ms : list (Z * list ascii)) : option (Z * Z * list ascii) :=
  match ms with
  | [] => None
  | (m, r1) :: ms' =>
      match r1 with
      | s :: r2 =>
          if Ascii.eqb s "-" then
            match day_alts r2 with
            | (d, r3) :: _ => Some (m, d, r3)
            | [] => first_month_day ms'
            end
          else first_month_day ms'
      | [] => first_month_day ms'
      end
  end.

(** [re.match] of [(?P<Y>\d\d\d\d)-(?P<m>...)-(?P<d>...)]: year, month,
    day and the unmatched rest of the string. *)
Definition ymd_regex (l : list ascii) : option (Z * Z * Z * list ascii) :=
  match l with
  | y1 :: y2 :: y3 :: y4 :: s1 :: r =>
      if forallb (digit_in 48 57) [y1; y2; y3; y4] && Ascii.eqb s1 "-" then
        match first_month_day (month_alts r) with
        | Some (m, d, rest) =>
            Some ((1000 * dval y1 + 100 * dval y2 + 10 * dval y3 + dval y4)%Z, m, d, rest)
        | None => None
        end
      else None
  | _ => None
  end.

(** [datetime.strptime(s, "%Y-%m-%d").date()]; [None] is its [ValueError]:
    no match, unconverted data left, year 0 or a day past the month's end. *)
Definition strptime_ymd (s : string) : option Date :=
  match ymd_regex (list_ascii_of_string s) with
  | Some (y, m, d, []) =>
      if ((1 <=? y) && (d <=? days_in_month y m))%Z then Some (y, m, d) else None
  | _ => None
  end.

Definition days_before_year (y : Z) : Z :=
  let y1 := (y - 1)%Z in (y1 * 365 + y1 / 4 - y1 / 100 + y1 / 400)%Z.

Definition days_before_month (y m : Z) : Z :=
  fold_right Z.add 0%Z (map (fun k => days_in_month y (Z.of_nat k)) (seq 1 (Z.to_nat (m - 1)))).

(** [date.toordinal()]; dates compare as their ordinals. *)
Definition toordinal (d : Date) : Z :=
  let '(y, m, dd) := d in (days_before_year y + days_before_month y m + dd)%Z.

(** [date(9999, 12, 31).toordinal()] *)
Definition max_ordinal : Z := 3652059.

Definition timedelta_max_days : Z := 999999999.

(* ------------------------------------------------------------------ *)
(** ** The DynamoDB table *)

(** Attribute values as boto3 returns them: a number ([Decimal]), a string,
    a boolean, null, a map, and the other types (lists, sets, binary). *)
#[warnings="-register-all"]
Inductive Attr : Type :=
| AN (q : Q)
| AS (s : string)
| ABool (b : bool)
| ANull
| AMap (kv : list (string * Attr))
| AOther.

(** An item: its partition key [pk] (a string, by the key schema) and its
    other attributes. *)
Record Item : Type := mkItem {
  pk : string;
  attrs : list (string * Attr)
}.

Definition item_get (it : Item) (k : string) : option Attr := assoc k (attrs it).

(** The table as a read sees it (reads are eventually consistent): its
    items in scan order; [table_page], the number of items, from the start
    of the scan order, that one [Scan] request reads before it reaches the
    1 MB DynamoDB reads per request; and the error every call raises when
    the service fails ([ClientError]). *)
Record Table : Type := mkTable {
  table_items : list Item;
  table_page : nat;
  table_fault : option string
}.

(** The items the first [Scan] request reads.  The repository sends one
    request and never follows [LastEvaluatedKey]. *)
Definition scan_page (t : Table) : list Item := firstn (table_page t) (table_items t).

(** [table.scan(FilterExpression=Key("pk").begins_with(pfx)[, Limit=n])]:
    the filter applies to the items read, at most [Limit] of them; below 1
    the client refuses the request. *)
Definition scan (t : Table) (pfx : string) (limit : option Z) : exn + list Item :=
  match table_fault t with
  | Some c => inl (RepoError c)
  | None =>
      match limit with
      | None => inr (filter (fun it => prefix pfx (pk it)) (scan_page t))
      | Some n =>
          if (n <? 1)%Z then inl (RepoError "ParamValidationError")
          else inr (filter (fun it => prefix pfx (pk it)) (firstn (Z.to_nat n) (scan_page t)))
      end
  end.

(** [table.get_item(Key={"pk": key})]: [Some] when the response has ["Item"]. *)
Definition get_item (t : Table) (key : string) : exn + option Item :=
  match table_fault t with
  | Some c => inl (RepoError c)
  | None => inr (find (fun it => String.eqb (pk it) key) (table_items t))
  end.

(** What the repository reads from the Python runtime: the UTC clock, a
    fresh [uuid4], and [float] on a [str] ([None]: [ValueError]). *)
Record Runtime : Type := mkRuntime {
  rt_today : Date;
  rt_now_iso : string;
  rt_uuid : string;
  float_of_str : string -> option Q
}.

(** [float(item.get(k, 0))]; [float] of [None], a dict, a list, a set or
    bytes raises [TypeError]. *)
Definition float_attr (rt : Runtime) (a : option Attr) : exn + Q :=
  match a with
  | None => inr 0
  | Some (AN q) => inr q
  | Some (ABool b) => inr (if b then 1 else 0)
  | Some (AS s) =>
      match float_of_str rt s with
      | Some q => inr q
      | None => inl (ValueError (msg_float s))
      end
  | Some ANull | Some (AMap _) | Some AOther => inl (RepoError "TypeError")
  end.

(* ------------------------------------------------------------------ *)
(** ** [DynamoRepo.get_sales_series] *)

(** [start_date = end_date - timedelta(days=days - 1)], as ordinals:
    [timedelta] and the subtraction raise [OverflowError] out of range. *)
Definition sales_window (rt : Runtime) (days : Z) : exn + (Z * Z) :=
  if (timedelta_max_days <? Z.abs (days - 1))%Z then inl (RepoError "OverflowError")
  else
    let end_ord := toordinal (rt_today rt) in
    let start_ord := (end_ord - (days - 1))%Z in
    if ((1 <=? start_ord) && (start_ord <=? max_ordinal))%Z then inr (start_ord, end_ord)
    else inl (RepoError "OverflowError").

(** The [for item in items] loop: the [try] catches the [ValueError] of
    [strptime] and of [float]; other exceptions leave the loop. *)
Fixpoint sales_rows (rt : Runtime) (start_ord end_ord : Z) (items : list Item)
    : exn + list SalePoint :=
  match items with
  | [] => inr []
  | it :: rest =>
      if negb (prefix "SALES#" (pk it)) then sales_rows rt start_ord end_ord rest
      else
        let date_str := nth 1 (split_once "#" (pk it)) "" in
        match strptime_ymd date_str with
        | None => sales_rows rt start_ord end_ord rest
        | Some d =>
            if ((start_ord <=? toordinal d) && (toordinal d <=? end_ord))%Z then
              match float_attr rt (item_get it "amount") with
              | inr a =>
                  sbind (sales_rows rt start_ord end_ord rest)
                    (fun l => inr ({| date := date_str; amount := a |} :: l))
              | inl (ValueError _) => sales_rows rt start_ord end_ord rest
              | inl e => inl e
              end
            else sales_rows rt start_ord end_ord rest
        end
  end.

(** [sales_series.sort(key=lambda x: x["date"])]: stable. *)
Fixpoint insert_by_date (x : SalePoint) (l : list SalePoint) : list SalePoint :=
  match l with
  | [] => [x]
  | y :: r => if str_ltb (date y) (date x) then y :: insert_by_date x r else x :: y :: r
  end.

Fixpoint sort_by_date (l : list SalePoint) : list SalePoint :=
  match l with
  | [] => []
  | x :: r => insert_by_date x (sort_by_date r)
  end.

Definition dynamo_get_sales_series (rt : Runtime) (t : Table) (days : Z)
    : exn + list SalePoint :=
  sbind (sales_window rt days) (fun '(start_ord, end_ord) =>
  sbind (scan t "SALES#" None) (fun items =>
  sbind (sales_rows rt start_ord end_ord items) (fun l =>
  inr (sort_by_date l)))).

(* ------------------------------------------------------------------ *)
(** ** [DynamoRepo.get_kpis] *)

Record KPIs : Type := mkKPIs {
  revenue : Q;
  gross_margin : Q;
  ar_total : Q;
  ar_over_60 : Q
}.

Definition dynamo_get_kpis (rt : Runtime) (t : Table) (period : string) : exn + KPIs :=
  sbind (get_item t ("KPI#" ++ period)) (fun resp =>
  match resp with
  | None => inr (mkKPIs 0 0 0 0)
  | Some it =>
      sbind (float_attr rt (item_get it "revenue")) (fun rv =>
      sbind (float_attr rt (item_get it "gross_margin")) (fun gm =>
      sbind (float_attr rt (item_get it "ar_total")) (fun at_ =>
      sbind (float_attr rt (item_get it "ar_over_60")) (fun a60 =>
      inr (mkKPIs rv gm at_ a60)))))
  end).

(* ------------------------------------------------------------------ *)
(** ** [DynamoRepo.get_ar_aging] *)

Record ARRow : Type := mkARRow {
  customer_id : string;
  customer_name : Attr;
  current : Q;
  days_30 : Q;
  days_60 : Q;
  days_90 : Q;
  days_over_90 : Q;
  total : Q
}.

(** [pk.split("#", 1)[1] if "#" in pk else "unknown"] *)
Definition customer_of_pk (p : string) : string :=
  if existsb (Ascii.eqb "#"%char) (list_ascii_of_string p)
  then nth 1 (split_once "#" p) "" else "unknown".

Definition ar_row (rt : Runtime) (it : Item) : exn + ARRow :=
  sbind (float_attr rt (item_get it "current")) (fun cur =>
  sbind (float_attr rt (item_get it "days_30")) (fun d30 =>
  sbind (float_attr rt (item_get it "days_60")) (fun d60 =>
  sbind (float_attr rt (item_get it "days_90")) (fun d90 =>
  sbind (float_attr rt (item_get it "days_over_90")) (fun d90p =>
  sbind (float_attr rt (item_get it "total")) (fun tot =>
  inr {| customer_id := customer_of_pk (pk it);
         customer_name := match item_get it "customer_name" with
                          | Some n => n | None => AS "Unknown" end;
         current := cur; days_30 := d30; days_60 := d60; days_90 := d90;
         days_over_90 := d90p; total := tot |})))))).

Fixpoint ar_rows (rt : Runtime) (items : list Item) : exn + list ARRow :=
  match items with
  | [] => inr []
  | it :: rest =>
      sbind (ar_row rt it) (fun row => sbind (ar_rows rt rest) (fun rows => inr (row :: rows)))
  end.

Definition dynamo_get_ar_aging (rt : Runtime) (t : Table) : exn + list ARRow :=
  sbind (scan t "AR_AGING#" None) (ar_rows rt).

(* ------------------------------------------------------------------ *)
(** ** [DynamoRepo.create_agent_action], [DynamoRepo.list_agent_actions] *)

Definition payload_attr (p : Payload) : Attr := AMap (map (fun '(k, v) => (k, AS v)) p).

(** The item [put_item] writes. *)
Definition action_item (rt : Runtime) (action : string) (payload : Payload)
    (performed_by : string) : Item :=
  {| pk := "ACTION#" ++ rt_uuid rt;
     attrs := [("action_id", AS (rt_uuid rt)); ("action", AS action);
               ("payload", payload_attr payload); ("performed_by", AS performed_by);
               ("timestamp", AS (rt_now_iso rt)); ("created_at", AS (rt_now_iso rt))] |}.

(** The action id and the item [put_item] writes; a failing service raises. *)
Definition dynamo_create_agent_action (rt : Runtime) (t : Table) (action : string)
    (payload : Payload) (performed_by : string) : exn + (string * Item) :=
  match table_fault t with
  | Some c => inl (RepoError c)
  | None => inr (rt_uuid rt, action_item rt action payload performed_by)
  end.

(** A listed action: [item.get(k)] is [None] for a missing attribute. *)
Record ActionView : Type := mkActionView {
  av_action_id : option Attr;
  av_action : option Attr;
  av_payload : Attr;
  av_performed_by : option Attr;
  av_timestamp : option Attr
}.

Definition action_view (it : Item) : ActionView :=
  {| av_action_id := item_get it "action_id";
     av_action := item_get it "action";
     av_payload := match item_get it "payload" with Some p => p | None => AMap [] end;
     av_performed_by := item_get it "performed_by";
     av_timestamp := item_get it "timestamp" |}.

Definition ts_string (a : ActionView) : option string :=
  match av_timestamp a with Some (AS s) => Some s | _ => None end.

Definition ts_key (a : ActionView) : string :=
  match ts_string a with Some s => s | None => "" end.

(** [actions.sort(key=lambda x: x.get("timestamp", ""), reverse=True)] on
    string keys: stable, so equal keys keep their scan order. *)
Fixpoint insert_by_ts_desc (x : ActionView) (l : list ActionView) : list ActionView :=
  match l with
  | [] => [x]
  | y :: r => if str_ltb (ts_key x) (ts_key y) then y :: insert_by_ts_desc x r else x :: y :: r
  end.

Fixpoint sort_by_ts_desc (l : list ActionView) : list ActionView :=
  match l with
  | [] => []
  | x :: r => insert_by_ts_desc x (sort_by_ts_desc r)
  end.

(** [l[:n]] *)
Definition py_slice_to {A} (n : Z) (l : list A) : list A :=
  if (0 <=? n)%Z then firstn (Z.to_nat n) l
  else firstn (List.length l - Z.to_nat (- n)) l.

(** With two actions or more the sort compares every key; a key that is not
    a string (an action without timestamp gives [None]) makes it raise
    [TypeError].  Timestamps of other attribute types are not modelled: the
    sort raises on them too, where Python may compare two numbers. *)
Definition dynamo_list_agent_actions (t : Table) (limit : Z) : exn + list ActionView :=
  sbind (scan t "ACTION#" (Some (limit * 2)%Z)) (fun items =>
  let actions := map action_view items in
  if ((2 <=? List.length actions)%nat
      && negb (forallb (fun a => match ts_string a with Some _ => true | None => false end) actions))
  then inl (RepoError "TypeError")
  else inr (py_slice_to limit (sort_by_ts_desc actions))).

(** The repository the handlers build, as seen by the use cases. *)
Definition dynamo_repo (rt : Runtime) (t : Table) : Repo :=
  {| get_sales_series := dynamo_get_sales_series rt t;
     create_agent_action := fun a pl pb =>
       sbind (dynamo_create_agent_action rt t a pl pb) (fun '(id, _) => inr id) |}.

(* ------------------------------------------------------------------ *)
(** ** Events, responses and [require_scope] *)

(** JSON-like Python values of an API Gateway event and of a response body. *)
#[warnings="-register-all"]
Inductive Json : Type :=
| JNull
| JBool (b : bool)
| JInt (z : Z)
| JFloat (q : Q)
| JStr (s : string)
| JArr (l : list Json)
| JObj (kv : list (string * Json)).

(** The exceptions of reading the event. *)
Inductive pyerr : Type :=
| PyKeyError
| PyTypeError
| PyAttributeError
| PyValueError (msg : string).

(** [v[k]]: only a dict can be indexed by a string. *)
Definition getitem (v : Json) (k : string) : pyerr + Json :=
  match v with
  | JObj kv => match assoc k kv with Some x => inr x | None => inl PyKeyError end
  | _ => inl PyTypeError
  end.

(** [v.get(k, default)]: only a dict has [get]. *)
Definition dict_get (v : Json) (k : string) (default : Json) : pyerr + Json :=
  match v with
  | JObj kv => inr (match assoc k kv with Some x => x | None => default end)
  | _ => inl PyAttributeError
  end.

Definition py_truthy (v : Json) : bool :=
  match v with
  | JNull => false
  | JBool b => b
  | JInt z => negb (z =? 0)%Z
  | JFloat q => negb (Qeq_bool q 0)
  | JStr s => negb (s =? "")
  | JArr l => match l with [] => false | _ => true end
  | JObj kv => match kv with [] => false | _ => true end
  end.

(** [int(v)] *)
Definition py_int_json (v : Json) : pyerr + Z :=
  match v with
  | JStr s =>
      match py_int s with
      | Some n => inr n
      | None => inl (PyValueError (msg_int s))
      end
  | JInt z => inr z
  | JBool b => inr (if b then 1 else 0)%Z
  | JFloat q => inr (Z.quot (Qnum q) (Zpos (Qden q)))
  | JNull | JArr _ | JObj _ => inl PyTypeError
  end.

(** An event is a dict. *)
Definition Event := list (string * Json).

(** [event["requestContext"]["authorizer"]["jwt"]["claims"]] *)
Definition get_claims_from_event (ev : Event) : pyerr + Json :=
  sbind (getitem (JObj ev) "requestContext") (fun rc =>
  sbind (getitem rc "authorizer") (fun au =>
  sbind (getitem au "jwt") (fun jw =>
  getitem jw "claims"))).

(** An API Gateway proxy response; [body] is the value [json.dumps]
    serialises. *)
Record Resp : Type := mkResp {
  statusCode : Z;
  headers : list (string * string);
  body : Json
}.

Definition cors_headers : list (string * string) :=
  [("Content-Type", "application/json");
   ("Access-Control-Allow-Origin", "*");
   ("Access-Control-Allow-Headers",
    "Content-Type,Authorization,X-Amz-Date,X-Api-Key,X-Amz-Security-Token");
   ("Access-Control-Allow-Methods", "GET,POST,PUT,DELETE,OPTIONS")].

Definition ok (data : Json) (status_code : Z) : Resp := mkResp status_code cors_headers data.

Definition bad_request (message : string) : Resp :=
  mkResp 400 cors_headers (JObj [("error", JStr message)]).

Definition unauthorized (message : string) : Resp :=
  mkResp 401 cors_headers (JObj [("error", JStr message)]).

Definition server_error (message : string) : Resp :=
  mkResp 500 cors_headers (JObj [("error", JStr message)]).

(** What a Lambda invocation ends with: a response, or an exception no
    handler caught. *)
Inductive Outcome : Type :=
| Respond (r : Resp)
| Crash (e : pyerr).

Definition msg_missing_claims := "Missing or invalid JWT claims".
Definition msg_insufficient_scope (required_scope : string) :=
  "Insufficient permissions. Required scope: " ++ required_scope.

(** [scope_claim.split() if isinstance(scope_claim, str) else []] *)
Definition scope_list (scope_claim : Json) : list string :=
  match scope_claim with JStr s => py_split s | _ => [] end.

(** [require_scope(required_scope)(handler)], around a handler that gives
    the repository calls it makes and its response. *)
Definition require_scope (required_scope : string)
    (handler : Event -> list call * Resp) (ev : Event) : list call * Outcome :=
  match get_claims_from_event ev with
  | inl PyKeyError => ([], Respond (unauthorized msg_missing_claims))
  | inl e => ([], Crash e)
  | inr claims =>
      match dict_get claims "scope" (JStr "") with
      | inl e => ([], Crash e)
      | inr scope_claim =>
          if existsb (String.eqb required_scope) (scope_list scope_claim)
          then let '(tr, resp) := handler ev in (tr, Respond resp)
          else ([], Respond (unauthorized (msg_insufficient_scope required_scope)))
      end
  end.

(* ------------------------------------------------------------------ *)
(** ** Handlers *)

(** [event.get("queryStringParameters") or {}] *)
Definition query_params (ev : Event) : Json :=
  match assoc "queryStringParameters" ev with
  | Some v => if py_truthy v then v else JObj []
  | None => JObj []
  end.

(** The user id of the log line: [get_claims_from_event] and [claims.get]
    in a [try] that handles [KeyError] only. *)
Definition log_user (ev : Event) : pyerr + Json :=
  match get_claims_from_event ev with
  | inl PyKeyError => inr (JStr "anonymous")
  | inl e => inl e
  | inr claims => dict_get claims "sub" (JStr "unknown")
  end.

Definition msg_cashflow_failed := "Failed to forecast cashflow".

Definition forecast_json (f : ForecastResult) : Json :=
  JObj [("forecast_days", JInt (forecast_days f));
        ("average_daily_cashflow", JFloat (average_daily_cashflow f));
        ("total_forecast", JFloat (total_forecast f));
        ("historical_period_days", JInt (historical_period_days f))].

(** [adapters/handlers/cashflow_forecast.handler], with the repository it
    builds from the settings: the repository calls and the response.  The
    [except] clauses see the exceptions of the use case and of the
    repository alike. *)
Definition cashflow_handler (r : Repo) (ev : Event) : list call * Resp :=
  match log_user ev with
  | inl _ => ([], server_error msg_cashflow_failed)
  | inr _ =>
      match dict_get (query_params ev) "horizon" (JStr "30") with
      | inl _ => ([], server_error msg_cashflow_failed)
      | inr horizon_str =>
          match py_int_json horizon_str with
          | inl (PyValueError m) => ([], bad_request ("Invalid horizon parameter: " ++ m))
          | inl _ => ([], server_error msg_cashflow_failed)
          | inr horizon_days =>
              if (horizon_days <=? 0)%Z then
                ([], bad_request "Invalid horizon parameter: Horizon must be positive")
              else if (365 <? horizon_days)%Z then
                ([], bad_request "Invalid horizon parameter: Horizon cannot exceed 365 days")
              else
                let '(tr, o) := run r (forecast_execute horizon_days) in
                (tr, match o with
                     | inr f => ok (forecast_json f) 200
                     | inl (ValueError m) => bad_request m
                     | inl (RepoError _) => server_error msg_cashflow_failed
                     end)
          end
      end
  end.

Definition msg_list_failed := "Failed to list agent actions".

(** [adapters/handlers/list_actions.handler] up to the repository call:
    the response it ends with, or the limit it passes to
    [list_agent_actions]. *)
Definition list_actions_limit (ev : Event) : Resp + Z :=
  match log_user ev with
  | inl _ => inl (server_error msg_list_failed)
  | inr _ =>
      match dict_get (query_params ev) "limit" (JStr "50") with
      | inl _ => inl (server_error msg_list_failed)
      | inr limit_str =>
          match py_int_json limit_str with
          | inl (PyValueError m) => inl (bad_request ("Invalid limit parameter: " ++ m))
          | inl _ => inl (server_error msg_list_failed)
          | inr limit =>
              if (limit <=? 0)%Z then inl (bad_request "Invalid limit parameter: Limit must be positive")
              else if (100 <? limit)%Z then inr 100%Z
              else inr limit
          end
      end
  end.

(** [CreateReminderRequest( **body)] after its validators. *)
Record ReminderRequest : Type := mkReminderRequest {
  rq_customer_id : string;
  rq_invoice_id : option string;
  rq_remind_date : option string
}.

(** An [Optional[str]] field with the validator [v.strip() if v else v];
    [None] when validation fails. *)
Definition opt_str_field (kv : list (string * Json)) (k : string) : option (option string) :=
  match assoc k kv with
  | None | Some JNull => Some None
  | Some (JStr s) => Some (Some (if s =? "" then s else strip s))
  | Some _ => None
  end.

(** [CreateReminderRequest( **body)]; [None] when it raises ([**] of a
    non-dict, a missing or non-string [customer_id], a blank one, a
    non-string optional field). *)
Definition parse_reminder_request (b : Json) : option ReminderRequest :=
  match b with
  | JObj kv =>
      match assoc "customer_id" kv, opt_str_field kv "invoice_id",
            opt_str_field kv "remind_date" with
      | Some (JStr c), Some inv, Some rd =>
          if is_blank c then None
          else Some {| rq_customer_id := strip c; rq_invoice_id := inv; rq_remind_date := rd |}
      | _, _, _ => None
      end
  | _ => None
  end.

Definition msg_reminder_failed := "Failed to create collection reminder".

(** [CreateReminderResponse(...).model_dump()] *)
Definition reminder_json (action_id : string) (rq : ReminderRequest) (user_id : string) : Json :=
  JObj [("action_id", JStr action_id);
        ("action", JStr "collection_reminder");
        ("customer_id", JStr (rq_customer_id rq));
        ("invoice_id", match rq_invoice_id rq with Some i => JStr i | None => JNull end);
        ("remind_date", JStr (match rq_remind_date rq with
                              | Some d => if d =? "" then "" else d
                              | None => "" end));
        ("performed_by", JStr user_id)].

Section ReminderHandler.

(** [json.loads]: the decoded value, or the message of its [JSONDecodeError]. *)
Variable json_loads : string -> string + Json.
(** [str(e)] of the exception [CreateReminderRequest( **body)] raises. *)
Variable request_error : Json -> string.

(** The body of [adapters/handlers/create_collection_reminder.handler],
    under [require_scope]: the repository calls and the response. *)
Definition reminder_handler_body (r : Repo) (env : Env) (ev : Event) : list call * Resp :=
  let fail := server_error msg_reminder_failed in
  match get_claims_from_event ev with
  | inl _ => ([], fail)
  | inr claims =>
      match dict_get claims "sub" (JStr "unknown") with
      | inl _ => ([], fail)
      | inr user_id =>
          let raw := match assoc "body" ev with Some b => b | None => JStr "{}" end in
          let decoded := match raw with JStr s => json_loads s | b => inr b end in
          match decoded with
          | inl msg => ([], bad_request msg)
          | inr b =>
              match parse_reminder_request b with
              | None => ([], bad_request ("Invalid request body: " ++ request_error b))
              | Some rq =>
                  match user_id with
                  | JStr u =>
                      let '(tr, o) := run r (reminder_execute env (rq_customer_id rq) u
                                               (rq_invoice_id rq) (rq_remind_date rq)) in
                      (tr, match o with
                           | inr action_id => ok (reminder_json action_id rq u) 201
                           | inl (ValueError m) => bad_request m
                           | inl (RepoError _) => fail
                           end)
                  | _ =>
                      if py_truthy user_id then ([], fail)
                      else ([], bad_request msg_performed_by_required)
                  end
              end
          end
      end
  end.

Definition reminder_handler (r : Repo) (env : Env) (ev : Event) : list call * Outcome :=
  require_scope "agent:actions" (reminder_handler_body r env) ev.

End ReminderHandler.

(* ------------------------------------------------------------------ *)
(** ** Sample runtime, table and events *)

(** [float] on the decimal integers. *)
Definition float_of_decimal (s : string) : option Q := option_map inject_Z (py_int s).

Definition rt_sample : Runtime :=
  {| rt_today := (2025, 10, 20)%Z;
     rt_now_iso := "2025-10-20T09:30:00.000000";
     rt_uuid := "0b6f3c1e-4a8d-4f2e-9c71-2d5e8a9b7c10";
     float_of_str := float_of_decimal |}.

Definition table_sample : Table :=
  mkTable
    [mkItem "SALES#2025-10-18" [("amount", AN 120)];
     mkItem "SALES#2025-10-19" [("amount", AS "80")];
     mkItem "SALES#2025-10-17" [("amount", AS "n/a")];
     mkItem "SALES#2024-01-01" [("amount", AN 5)];
     mkItem "AR_AGING#C1" [("customer_name", AS "Acme"); ("current", AN 100); ("total", AN 250)];
     mkItem "ACTION#a1" [("action_id", AS "a1"); ("action", AS "collection_reminder");
                         ("timestamp", AS "2025-10-19T10:00:00")];
     mkItem "ACTION#a2" [("action_id", AS "a2"); ("action", AS "payment_plan");
                         ("timestamp", AS "2025-10-20T08:00:00")];
     mkItem "KPI#last_60d" [("revenue", AN 1000)]]
    8 None.

Definition action_a1 : Item :=
  mkItem "ACTION#a1" [("action_id", AS "a1"); ("action", AS "collection_reminder");
                      ("timestamp", AS "2025-10-19T10:00:00")].


(** An action written without timestamp. *)
Definition action_a3 : Item :=
  mkItem "ACTION#a3" [("action_id", AS "a3"); ("action", AS "payment_plan")].

(** An event whose JWT authorizer carries [claims]. *)
Definition event_with (claims : list (string * Json)) (rest : Event) : Event :=
  ("requestContext",
   JObj [("authorizer", JObj [("jwt", JObj [("claims", JObj claims)])])]) :: rest.

Definition claims_sample : list (string * Json) :=
  [("sub", JStr "user-42"); ("scope", JStr "openid agent:actions")].

Definition quoted (s : string) : string := String dquote (s ++ String dquote "").

(** The body [{"customer_id": " C1 "}]. *)
Definition body_c1 : string := "{" ++ quoted "customer_id" ++ ": " ++ quoted " C1 " ++ "}".

(** A decoder for the sample bodies. *)
Definition json_loads_sample (s : string) : string + Json :=
  if s =? "{}" then inr (JObj [])
  else if s =? body_c1 then inr (JObj [("customer_id", JStr " C1 ")])
  else inl "Expecting value: line 1 column 1 (char 0)".

Definition request_error_sample (b : Json) : string := "1 validation error for CreateReminderRequest".

Definition cashflow_event_sample : Event :=
  event_with claims_sample [("queryStringParameters", JObj [("horizon", JStr "7")])].


Definition limit_event (lim : string) : Event :=
  event_with claims_sample [("queryStringParameters", JObj [("limit", JStr lim)])].

Definition reminder_event (body : string) : Event :=
  event_with claims_sample [("body", JStr body)].

(* ------------------------------------------------------------------ *)
(** ** Properties: the effect layer *)

(** The [log; raise] handlers change nothing observable. *)
Lemma run_catch_reraise {A} (r : Repo) (p : Prog A) :
  run r (catch p log_and_reraise) = run r p.
Proof.
  induction p as [a|e|d k IH|a pl pb k IH]; simpl; try reflexivity.
  - destruct (get_sales_series r d) as [e|s]; [reflexivity|].
    now rewrite IH.
  - destruct (create_agent_action r a pl pb) as [e|id]; [reflexivity|].
    now rewrite IH.
Qed.

(* ------------------------------------------------------------------ *)
(** ** Properties: cashflow forecast *)

Lemma forecast_run_error (h : Z) (r : Repo) (e : exn) :
  get_sales_series r (Z.max (h * 2) 60) = inl e ->
  run r (forecast_execute h) = ([CallGetSales (Z.max (h * 2) 60)], inl e).
Proof.
  intros He. unfold forecast_execute. rewrite run_catch_reraise. simpl.
  now rewrite He.
Qed.

Lemma forecast_run_empty (h : Z) (r : Repo) :
  get_sales_series r (Z.max (h * 2) 60) = inr [] ->
  run r (forecast_execute h)
  = ([CallGetSales (Z.max (h * 2) 60)], inl (ValueError msg_no_history)).
Proof.
  intros He. unfold forecast_execute. rewrite run_catch_reraise. simpl.
  now rewrite He.
Qed.

Lemma forecast_run_ok (h : Z) (r : Repo) (s : list SalePoint) :
  get_sales_series r (Z.max (h * 2) 60) = inr s ->
  s <> [] ->
  run r (forecast_execute h)
  = ([CallGetSales (Z.max (h * 2) 60)],
     inr {| forecast_days := h;
            average_daily_cashflow := round2 (mean (map amount s));
            total_forecast := round2 (mean (map amount s) * inject_Z h);
            historical_period_days := Z.of_nat (List.length s) |}).
Proof.
  intros He Hne. unfold forecast_execute. rewrite run_catch_reraise. simpl.
  rewrite He. destruct s as [|p s]; [congruence|]. reflexivity.
Qed.

Lemma round_half_even_nonpos (x : Q) :
  x <= 0 -> (round_half_even x <= 0)%Z.
Proof.
  intros Hx. unfold round_half_even.
  pose proof (Qfloor_le x) as Hf.
  set (f := Qfloor x) in *.
  assert (Hf0 : (f <= 0)%Z).
  { rewrite Zle_Qle. change (inject_Z 0) with 0. lra. }
  destruct (Qlt_le_dec (x - inject_Z f) (1 # 2)) as [_|Hd]; [exact Hf0|].
  assert (Hneg : (f < 0)%Z).
  { rewrite Zlt_Qlt. change (inject_Z 0) with 0. lra. }
  destruct (Qeq_dec (x - inject_Z f) (1 # 2)); [destruct (Z.even f)|]; lia.
Qed.

Lemma round2_nonpos (x : Q) : x <= 0 -> round2 x <= 0.
Proof.
  intros Hx. unfold round2.
  pose proof (round_half_even_nonpos (x * 100)) as H.
  assert (Hx100 : x * 100 <= 0) by lra.
  specialize (H Hx100).
  unfold Qle; simpl. lia.
Qed.

Lemma sumQ_nonneg (l : list Q) : (forall q, In q l -> 0 <= q) -> 0 <= sumQ l.
Proof.
  induction l as [|q l IH]; intros Hl; simpl; [lra|].
  assert (0 <= q) by (apply Hl; left; reflexivity).
  assert (0 <= sumQ l) by (apply IH; intros; apply Hl; right; assumption).
  lra.
Qed.

Lemma mean_nonneg (l : list Q) : (forall q, In q l -> 0 <= q) -> 0 <= mean l.
Proof.
  intros Hl. unfold mean, Qdiv.
  apply Qmult_le_0_compat; [now apply sumQ_nonneg|].
  apply Qinv_le_0_compat. unfold Qle; simpl. lia.
Qed.

(* ------------------------------------------------------------------ *)
(** ** Properties: anomaly detection, the branches of [execute] *)

Lemma distinct_values_length (l : list Q) :
  (List.length (distinct_values l) <= List.length l)%nat.
Proof.
  induction l as [|x l IH]; simpl; [lia|].
  destruct (existsb (Qeq_bool x) (distinct_values l)); simpl; lia.
Qed.

Lemma distinct_values_incl (l : list Q) x : In x (distinct_values l) -> In x l.
Proof.
  induction l as [|y l IH]; simpl; [tauto|].
  destruct (existsb (Qeq_bool y) (distinct_values l)); simpl; intuition.
Qed.

Lemma distinct_values_nil (l : list Q) : distinct_values l = [] -> l = [].
Proof.
  destruct l as [|x l]; simpl; [reflexivity|].
  destruct (existsb (Qeq_bool x) (distinct_values l)) eqn:E; [|discriminate].
  intros Hd. rewrite Hd in E. discriminate.
Qed.

(** Numerically equal amounts leave at most one element in the set. *)
Lemma distinct_values_all_equal (l : list Q) :
  (forall x y, In x l -> In y l -> x == y) ->
  (List.length (distinct_values l) <= 1)%nat.
Proof.
  induction l as [|x l IH]; intros Heq; simpl; [lia|].
  assert (IH' : (List.length (distinct_values l) <= 1)%nat).
  { apply IH. intros a b Ha Hb. apply Heq; right; assumption. }
  destruct (distinct_values l) as [|y d] eqn:E.
  - simpl. lia.
  - assert (Hy : In y l) by (apply distinct_values_incl; rewrite E; left; reflexivity).
    assert (Hxy : Qeq_bool x y = true).
    { apply Qeq_bool_iff. apply Heq; [left; reflexivity | right; exact Hy]. }
    simpl. rewrite Hxy. simpl. exact IH'.
Qed.

Lemma detect_run_error (t : Q) (per : string) (r : Repo) (e : exn) :
  get_sales_series r (fst (parse_period_days per)) = inl e ->
  run r (detect_execute t per)
  = ([CallGetSales (fst (parse_period_days per))], inl e).
Proof.
  intros He. unfold detect_execute. rewrite run_catch_reraise. simpl.
  now rewrite He.
Qed.

Lemma detect_run_short (t : Q) (per : string) (r : Repo) (s : list SalePoint) :
  get_sales_series r (fst (parse_period_days per)) = inr s ->
  (List.length s < 2)%nat ->
  run r (detect_execute t per)
  = ([CallGetSales (fst (parse_period_days per))], inl (ValueError msg_insufficient)).
Proof.
  intros He Hs. unfold detect_execute. rewrite run_catch_reraise. simpl.
  rewrite He. apply Nat.ltb_lt in Hs. now rewrite Hs.
Qed.

Lemma detect_run_flat (t : Q) (per : string) (r : Repo) (s : list SalePoint) :
  get_sales_series r (fst (parse_period_days per)) = inr s ->
  (2 <= List.length s)%nat ->
  (List.length (distinct_values (map amount s)) < 2)%nat ->
  run r (detect_execute t per)
  = ([CallGetSales (fst (parse_period_days per))],
     inr {| period := per;
            total_days := Z.of_nat (List.length s);
            mean_sales := round2 (mean (map amount s));
            std_dev := 0;
            anomalies := [];
            anomaly_count := 0 |}).
Proof.
  intros He Hs Hd. unfold detect_execute. rewrite run_catch_reraise. simpl.
  rewrite He.
  assert (Hs' : (List.length s <? 2)%nat = false) by (apply Nat.ltb_ge; lia).
  apply Nat.ltb_lt in Hd. now rewrite Hs', Hd.
Qed.

Lemma detect_run_full (t : Q) (per : string) (r : Repo) (s : list SalePoint) :
  get_sales_series r (fst (parse_period_days per)) = inr s ->
  (2 <= List.length (distinct_values (map amount s)))%nat ->
  let m := mean (map amount s) in
  let sd := stdev (map amount s) in
  let sorted := sort_desc (collect_anomalies (classify t m sd) s) in
  run r (detect_execute t per)
  = ([CallGetSales (fst (parse_period_days per))],
     inr {| period := per;
            total_days := Z.of_nat (List.length s);
            mean_sales := round2 m;
            std_dev := round2_R sd;
            anomalies := sorted;
            anomaly_count := Z.of_nat (List.length sorted) |}).
Proof.
  intros He Hd. unfold detect_execute. rewrite run_catch_reraise. simpl.
  rewrite He.
  pose proof (distinct_values_length (map amount s)) as Hl.
  rewrite length_map in Hl.
  assert (Hs' : (List.length s <? 2)%nat = false) by (apply Nat.ltb_ge; lia).
  assert (Hd' : (List.length (distinct_values (map amount s)) <? 2)%nat = false)
    by (apply Nat.ltb_ge; lia).
  now rewrite Hs', Hd'.
Qed.

(* ------------------------------------------------------------------ *)
(** ** Properties: the stable descending sort *)

Lemma insert_desc_perm x l : Permutation (insert_desc x l) (x :: l).
Proof.
  induction l as [|y l IH]; simpl; [reflexivity|].
  destruct (Qle_bool (sort_key y) (sort_key x)); [reflexivity|].
  rewrite IH. apply perm_swap.
Qed.

Lemma sort_desc_perm l : Permutation (sort_desc l) l.
Proof.
  induction l as [|x l IH]; simpl; [reflexivity|].
  rewrite insert_desc_perm. now apply perm_skip.
Qed.

Lemma insert_desc_sorted x l :
  Sorted key_desc l -> Sorted key_desc (insert_desc x l).
Proof.
  induction l as [|y l IH]; intros Hs; simpl.
  - repeat constructor.
  - destruct (Qle_bool (sort_key y) (sort_key x)) eqn:E.
    + apply Qle_bool_iff in E. constructor; [exact Hs|]. constructor. exact E.
    + assert (Hyx : sort_key x <= sort_key y).
      { apply Qlt_le_weak. apply Qnot_le_lt. intros H.
        apply Qle_bool_iff in H. congruence. }
      apply Sorted_inv in Hs as [Hs Hhd].
      constructor; [now apply IH|].
      destruct l as [|z l]; simpl.
      * constructor. exact Hyx.
      * apply HdRel_inv in Hhd.
        destruct (Qle_bool (sort_key z) (sort_key x)); constructor; assumption.
Qed.

Lemma sort_desc_sorted l : Sorted key_desc (sort_desc l).
Proof.
  induction l as [|x l IH]; simpl; [constructor|]. now apply insert_desc_sorted.
Qed.

(** Stability: the elements of one key keep their relative order. *)
Lemma insert_desc_stable x l k :
  filter (same_key k) (insert_desc x l) = filter (same_key k) (x :: l).
Proof.
  induction l as [|y l IH]; simpl; [reflexivity|].
  destruct (Qle_bool (sort_key y) (sort_key x)) eqn:E; [reflexivity|].
  assert (Hlt : sort_key x < sort_key y).
  { apply Qnot_le_lt. intros H. apply Qle_bool_iff in H. congruence. }
  simpl. rewrite IH. simpl.
  destruct (same_key k x) eqn:Ex; destruct (same_key k y) eqn:Ey; try reflexivity.
  unfold same_key in Ex, Ey. apply Qeq_bool_iff in Ex, Ey.
  exfalso. rewrite Ex, Ey in Hlt. apply (Qlt_irrefl k). exact Hlt.
Qed.

Lemma sort_desc_stable l k :
  filter (same_key k) (sort_desc l) = filter (same_key k) l.
Proof.
  induction l as [|x l IH]; simpl; [reflexivity|].
  rewrite insert_desc_stable. simpl. now rewrite IH.
Qed.

(* ------------------------------------------------------------------ *)
(** ** Properties: the sample standard deviation and the z-score loop *)

Lemma Qsq_nonneg (d : Q) : 0 <= d * d.
Proof.
  destruct (Qlt_le_dec d 0) as [H|H].
  - setoid_replace (d * d) with ((- d) * (- d)) by ring.
    apply Qmult_le_0_compat; lra.
  - apply Qmult_le_0_compat; lra.
Qed.

Lemma sq_devs_nonneg m l : 0 <= sq_devs m l.
Proof.
  unfold sq_devs. apply sumQ_nonneg. intros q Hq.
  apply in_map_iff in Hq as [x [<- _]]. apply Qsq_nonneg.
Qed.

Lemma sq_devs_zero m l : sq_devs m l == 0 -> forall x, In x l -> x == m.
Proof.
  induction l as [|y l IH]; intros H0 x Hx; [destruct Hx|].
  unfold sq_devs in H0. simpl in H0. fold (sq_devs m l) in H0.
  pose proof (sq_devs_nonneg m l) as Hnn.
  assert (Hy : (y - m) * (y - m) == 0).
  { pose proof (Qsq_nonneg (y - m)). lra. }
  destruct Hx as [<-|Hx].
  - apply Qmult_integral in Hy. destruct Hy; lra.
  - apply IH; [|exact Hx].
    pose proof (Qsq_nonneg (y - m)). lra.
Qed.

Lemma variance_pos (l : list Q) :
  (2 <= List.length (distinct_values l))%nat -> 0 < variance l.
Proof.
  intros Hd.
  pose proof (distinct_values_length l) as Hl.
  assert (Hss : 0 < sq_devs (mean l) l).
  { destruct (Qlt_le_dec 0 (sq_devs (mean l) l)) as [H|H]; [exact H|].
    exfalso.
    assert (Hz : sq_devs (mean l) l == 0) by (pose proof (sq_devs_nonneg (mean l) l); lra).
    pose proof (sq_devs_zero _ _ Hz) as Hall.
    assert (Hle : (List.length (distinct_values l) <= 1)%nat).
    { apply distinct_values_all_equal. intros x y Hx Hy.
      rewrite (Hall x Hx), (Hall y Hy). reflexivity. }
    lia. }
  unfold variance. fold (sq_devs (mean l) l).
  assert (Hn : 0 < inject_Z (Z.of_nat (List.length l) - 1)).
  { unfold Qlt; simpl. lia. }
  unfold Qdiv. apply Qmult_lt_0_compat; [exact Hss|].
  apply Qinv_lt_0_compat. exact Hn.
Qed.

Lemma Q2R_zero : Q2R 0 = 0%R.
Proof. unfold Q2R; simpl. lra_R. Qed.

Lemma stdev_pos (l : list Q) :
  (2 <= List.length (distinct_values l))%nat -> (0 < stdev l)%R.
Proof.
  intros Hd. unfold stdev. apply sqrt_lt_R0.
  rewrite <- Q2R_zero. apply Qlt_Rlt. now apply variance_pos.
Qed.

Lemma in_collect_anomalies f s a :
  In a (collect_anomalies f s) <-> exists p, In p s /\ f p = Some a.
Proof.
  induction s as [|p s IH]; simpl.
  - split; [tauto|]. intros [p [[] _]].
  - destruct (f p) as [b|] eqn:Ef; simpl; rewrite IH; split.
    + intros [<-|[q [Hq Hfq]]]; [exists p; auto | exists q; auto].
    + intros [q [[<-|Hq] Hfq]]; [left; congruence | right; exists q; auto].
    + intros [q [Hq Hfq]]. exists q; auto.
    + intros [q [[<-|Hq] Hfq]]; [congruence | exists q; auto].
Qed.

Lemma classify_some (t m : Q) (sd : R) (p : SalePoint) (a : AnomalyPoint.t) :
  (0 < sd)%R ->
  classify t m sd p = Some a ->
  let z := ((Q2R (amount p) - Q2R m) / sd)%R in
  (Q2R t < Rabs z)%R /\
  AnomalyPoint.date a = date p /\
  AnomalyPoint.amount a = round2 (amount p) /\
  AnomalyPoint.z_score a = round2_R z /\
  (AnomalyPoint.deviation a = High <-> (0 < z)%R).
Proof.
  intros Hsd Hs z. unfold classify, z_score_of in Hs.
  destruct (Rlt_dec 0 sd) as [_|Hn]; [|contradiction].
  fold z in Hs.
  destruct (Rlt_dec (Q2R t) (Rabs z)) as [Ht|Ht]; [|discriminate].
  injection Hs as <-. simpl.
  split; [exact Ht|]. split; [reflexivity|]. split; [reflexivity|].
  split; [reflexivity|].
  destruct (Rlt_dec 0 z); split; intros H; solve [assumption | reflexivity | discriminate | contradiction].
Qed.

Lemma classify_none (t m : Q) (sd : R) (p : SalePoint) :
  (0 < sd)%R ->
  classify t m sd p = None ->
  ~ (Q2R t < Rabs ((Q2R (amount p) - Q2R m) / sd))%R.
Proof.
  intros Hsd. unfold classify, z_score_of.
  destruct (Rlt_dec 0 sd) as [_|Hn]; [|contradiction].
  destruct (Rlt_dec (Q2R t) _) as [Ht|Ht]; [discriminate|]. auto.
Qed.

Lemma NoDup_map_inj {A B} (f : A -> B) (l : list A) x y :
  NoDup (map f l) -> In x l -> In y l -> f x = f y -> x = y.
Proof.
  induction l as [|a l IH]; intros Hnd Hx Hy Hf; [destruct Hx|].
  simpl in Hnd. inversion Hnd as [|? ? Hna Hnd']; subst.
  destruct Hx as [<-|Hx], Hy as [<-|Hy]; try reflexivity.
  - exfalso. apply Hna. rewrite Hf. now apply in_map.
  - exfalso. apply Hna. rewrite <- Hf. now apply in_map.
  - now apply IH.
Qed.

(* ------------------------------------------------------------------ *)
(** ** Claims: anomaly detection *)

(** C2. On a series with at least two points and two distinct amounts, a
    point is reported iff [|z| > threshold] (strictly), with
    [z = (amount - mean) / stdev] and [stdev] the sample (n - 1) standard
    deviation; each reported record carries its point's date, rounded amount
    and rounded z-score, and [deviation = high] iff [z > 0].  Points are
    identified by their date, unique within a series. *)
Theorem detect_anomaly_iff_zscore (t : Q) (per : string) (r : Repo) (s : list SalePoint) :
  get_sales_series r (fst (parse_period_days per)) = inr s ->
  (2 <= List.length s)%nat ->
  (2 <= List.length (distinct_values (map amount s)))%nat ->
  NoDup (map date s) ->
  let m := mean (map amount s) in
  let sd := stdev (map amount s) in
  let z := fun p => ((Q2R (amount p) - Q2R m) / sd)%R in
  exists res,
    snd (run r (detect_execute t per)) = inr res /\
    (forall p, In p s ->
       ((exists a, In a (anomalies res) /\ AnomalyPoint.date a = date p)
        <-> (Q2R t < Rabs (z p))%R)) /\
    (forall a, In a (anomalies res) ->
       exists p, In p s /\ AnomalyPoint.date a = date p /\
         AnomalyPoint.amount a = round2 (amount p) /\
         AnomalyPoint.z_score a = round2_R (z p) /\
         (Q2R t < Rabs (z p))%R /\
         (AnomalyPoint.deviation a = High <-> (0 < z p)%R)).
Proof.
  intros He _ Hd Hnd m sd z.
  pose proof (stdev_pos _ Hd) as Hsd. fold sd in Hsd.
  pose proof (detect_run_full t per r s He Hd) as Hrun. cbv zeta in Hrun.
  fold m sd in Hrun.
  eexists. rewrite Hrun. split; [reflexivity|]. simpl.
  assert (Hin : forall a, In a (sort_desc (collect_anomalies (classify t m sd) s))
                  <-> exists p, In p s /\ classify t m sd p = Some a).
  { intros a. rewrite <- in_collect_anomalies. split; apply Permutation_in;
      [|symmetry]; apply sort_desc_perm. }
  split.
  - intros p Hp. split.
    + intros [a [Ha Hda]]. apply Hin in Ha as [q [Hq Hcq]].
      destruct (classify_some t m sd q a Hsd Hcq) as [Ht [Hdq _]].
      assert (q = p) as <- by (apply (NoDup_map_inj date s); congruence).
      exact Ht.
    + intros Ht. destruct (classify t m sd p) as [a|] eqn:Ec.
      * exists a. split; [apply Hin; exists p; auto|].
        apply (classify_some t m sd p a Hsd Ec).
      * exfalso. exact (classify_none t m sd p Hsd Ec Ht).
  - intros a Ha. apply Hin in Ha as [p [Hp Hcp]].
    destruct (classify_some t m sd p a Hsd Hcp) as [Ht [Hda [Ham [Hz Hdev]]]].
    exists p. repeat split; try assumption; apply Hdev.
Qed.

(** C3. Fewer than two points: [ValueError] (InsufficientDataError).  Two or
    more points, all numerically equal: a result with [std_dev = 0], no
    anomalies and [anomaly_count = 0]; no standard deviation is computed. *)
Theorem detect_insufficient_or_flat (t : Q) (per : string) (r : Repo) (s : list SalePoint) :
  get_sales_series r (fst (parse_period_days per)) = inr s ->
  ((List.length s < 2)%nat ->
   snd (run r (detect_execute t per)) = inl (ValueError msg_insufficient)) /\
  ((2 <= List.length s)%nat ->
   (forall x y, In x (map amount s) -> In y (map amount s) -> x == y) ->
   snd (run r (detect_execute t per))
   = inr {| period := per;
            total_days := Z.of_nat (List.length s);
            mean_sales := round2 (mean (map amount s));
            std_dev := 0;
            anomalies := [];
            anomaly_count := 0 |}).
Proof.
  intros He. split.
  - intros Hs. now rewrite (detect_run_short t per r s He Hs).
  - intros Hs Heq.
    pose proof (distinct_values_all_equal _ Heq) as Hd.
    rewrite (detect_run_flat t per r s He Hs); [reflexivity|lia].
Qed.

(** C4. Every result lists its anomalies by descending [|z_score|]; records
    with equal [|z_score|] keep the order of the series they come from.
    [found] is the list the loop builds, in series order, from the series
    the repository returned: no record when all amounts are equal, else one
    record per point that [classify] (the loop body, with the series' mean
    and standard deviation) reports. *)
Theorem detect_anomalies_sorted_stable (t : Q) (per : string) (r : Repo) :
  match snd (run r (detect_execute t per)) with
  | inr res =>
      exists s, get_sales_series r (fst (parse_period_days per)) = inr s /\
        Sorted key_desc (anomalies res) /\
        let found :=
          if (List.length (distinct_values (map amount s)) <? 2)%nat then []
          else collect_anomalies (classify t (mean (map amount s)) (stdev (map amount s))) s in
        Permutation (anomalies res) found /\
        forall k, filter (same_key k) (anomalies res) = filter (same_key k) found
  | inl _ => True
  end.
Proof.
  destruct (get_sales_series r (fst (parse_period_days per))) as [e|s] eqn:He.
  - now rewrite (detect_run_error t per r e He).
  - destruct (Nat.lt_ge_cases (List.length s) 2) as [Hs|Hs].
    { now rewrite (detect_run_short t per r s He Hs). }
    destruct (Nat.lt_ge_cases (List.length (distinct_values (map amount s))) 2) as [Hd|Hd].
    + rewrite (detect_run_flat t per r s He Hs Hd).
      exists s. split; [reflexivity|]. split; [constructor|].
      cbv zeta. replace (List.length (distinct_values (map amount s)) <? 2)%nat with true
        by (symmetry; now apply Nat.ltb_lt).
      split; [constructor|reflexivity].
    + pose proof (detect_run_full t per r s He Hd) as Hrun. cbv zeta in Hrun.
      rewrite Hrun.
      exists s. split; [reflexivity|]. split; [apply sort_desc_sorted|].
      cbv zeta. replace (List.length (distinct_values (map amount s)) <? 2)%nat with false
        by (symmetry; now apply Nat.ltb_ge).
      split; [apply sort_desc_perm|]. intros k. apply sort_desc_stable.
Qed.

(* ------------------------------------------------------------------ *)
(** ** Properties: period strings *)

Lemma list_ascii_of_string_append (u v : string) :
  list_ascii_of_string (u ++ v) = (list_ascii_of_string u ++ list_ascii_of_string v)%list.
Proof. induction u as [|c u IH]; simpl; [reflexivity|]. now rewrite IH. Qed.




Lemma prefix_append (p u : string) : prefix p (p ++ u) = true.
Proof.
  induction p as [|c p IH]; simpl; [now destruct u|].
  destruct (ascii_dec c c) as [_|n]; [exact IH | now contradiction n].
Qed.

Lemma prefix_split (p s : string) : prefix p s = true -> exists u, s = (p ++ u)%string.
Proof.
  revert s. induction p as [|c p IH]; intros s H.
  - now exists s.
  - destruct s as [|c' s]; simpl in H; [discriminate|].
    destruct (ascii_dec c c') as [<-|_]; [|discriminate].
    destruct (IH s H) as [u ->]. now exists u.
Qed.















(* ------------------------------------------------------------------ *)
(** ** Claims: period parsing *)



(* ------------------------------------------------------------------ *)
(** ** Claims: cashflow forecast *)

Example forecast_spec_scenario :
  snd (run (sales_repo [mkSale "2025-10-01" 4000; mkSale "2025-10-02" 5000;
                        mkSale "2025-10-03" 6000]) (forecast_execute 10))
  = inr {| forecast_days := 10; average_daily_cashflow := 500000 # 100;
           total_forecast := 5000000 # 100; historical_period_days := 3 |}.
Proof. vm_compute. reflexivity. Qed.

(** C1 as stated fails: [total_forecast] is the rounded product of the
    unrounded mean with the horizon, not of the rounded mean.  Amounts
    [1, 0, 0] over a horizon of 3: the mean 1/3 rounds to 0.33, the total is
    [round(1, 2) = 1.00], while [round(0.33 * 3, 2) = 0.99]. *)
Lemma forecast_total_not_from_rounded_average :
  match snd (run (sales_repo [mkSale "2025-10-01" 1; mkSale "2025-10-02" 0;
                              mkSale "2025-10-03" 0]) (forecast_execute 3)) with
  | inr res =>
      average_daily_cashflow res = 33 # 100 /\
      total_forecast res = 100 # 100 /\
      ~ (total_forecast res == round2 (average_daily_cashflow res * inject_Z 3))
  | inl _ => False
  end.
Proof.
  vm_compute. split; [reflexivity|]. split; [reflexivity|]. discriminate.
Qed.

(** C1 (as the code does it).  For a positive horizon the engine asks once
    for [max(2 * horizon, 60)] days; on a non-empty series of [N] points the
    result has [forecast_days = horizon], [historical_period_days = N],
    [average_daily_cashflow = round(mean, 2)] and
    [total_forecast = round(mean * horizon, 2)], [mean] being the unrounded
    mean of all [N] amounts. *)
Theorem forecast_result_fields (h : Z) (r : Repo) (s : list SalePoint) :
  (0 < h)%Z ->
  get_sales_series r (Z.max (h * 2) 60) = inr s ->
  s <> [] ->
  run r (forecast_execute h)
  = ([CallGetSales (Z.max (h * 2) 60)],
     inr {| forecast_days := h;
            average_daily_cashflow := round2 (mean (map amount s));
            total_forecast := round2 (mean (map amount s) * inject_Z h);
            historical_period_days := Z.of_nat (List.length s) |}).
Proof. intros _ He Hne. exact (forecast_run_ok h r s He Hne). Qed.

(** C6. A repository failure comes out unchanged; on a returned series the
    forecast fails exactly when the series is empty, and then with the
    [ValueError] (InsufficientDataError) of the code. *)
Theorem forecast_fails_iff_empty (h : Z) (r : Repo) :
  (forall e, get_sales_series r (Z.max (h * 2) 60) = inl e ->
     snd (run r (forecast_execute h)) = inl e) /\
  (forall s, get_sales_series r (Z.max (h * 2) 60) = inr s ->
     (forall e, snd (run r (forecast_execute h)) = inl e ->
        s = [] /\ e = ValueError msg_no_history) /\
     (s = [] -> snd (run r (forecast_execute h)) = inl (ValueError msg_no_history))).
Proof.
  split.
  - intros e He. now rewrite (forecast_run_error h r e He).
  - intros s He. split.
    + intros e Hrun. destruct s as [|p s'].
      * rewrite (forecast_run_empty h r He) in Hrun. simpl in Hrun.
        injection Hrun as <-. split; reflexivity.
      * rewrite (forecast_run_ok h r (p :: s') He) in Hrun by discriminate.
        discriminate.
    + intros ->. now rewrite (forecast_run_empty h r He).
Qed.

(** C10.  A horizon of 0 or below is not rejected: the engine asks for 60
    days and, on a non-empty series of non-negative amounts, returns
    [total_forecast = round(mean * horizon, 2)], which is at most 0. *)
Theorem forecast_nonpositive_horizon (h : Z) (r : Repo) (s : list SalePoint) :
  (h <= 0)%Z ->
  get_sales_series r 60 = inr s ->
  s <> [] ->
  (forall p, In p s -> 0 <= amount p) ->
  Z.max (h * 2) 60 = 60%Z /\
  exists res,
    run r (forecast_execute h) = ([CallGetSales 60], inr res) /\
    forecast_days res = h /\
    total_forecast res = round2 (mean (map amount s) * inject_Z h) /\
    total_forecast res <= 0.
Proof.
  intros Hh He Hne Hpos.
  assert (Hmax : Z.max (h * 2) 60 = 60%Z) by lia.
  split; [exact Hmax|].
  rewrite <- Hmax in He.
  eexists. rewrite (forecast_run_ok h r s He Hne), Hmax.
  split; [reflexivity|]. simpl. split; [reflexivity|]. split; [reflexivity|].
  apply round2_nonpos.
  assert (Hm : 0 <= mean (map amount s)).
  { apply mean_nonneg. intros q Hq. apply in_map_iff in Hq as [p [<- Hp]].
    now apply Hpos. }
  assert (Hz : inject_Z h <= 0).
  { change 0 with (inject_Z 0). rewrite <- Zle_Qle. exact Hh. }
  setoid_replace (mean (map amount s) * inject_Z h)
    with (- (mean (map amount s) * - inject_Z h)) by ring.
  assert (0 <= mean (map amount s) * - inject_Z h) by (apply Qmult_le_0_compat; lra).
  lra.
Qed.

(* ------------------------------------------------------------------ *)
(** ** Claims: collection reminder *)

Lemma is_blank_strip (s : string) : is_blank s = (strip s =? "").
Proof. destruct s; reflexivity. Qed.

Example date_isoformat_padded : date_isoformat (2025, 3, 7)%Z = "2025-03-07".
Proof. reflexivity. Qed.

Example reminder_trims_inputs :
  reminder_execute env_20251020 "  CUST1  " "  u  " None None
  = CreateAgentAction "collection_reminder"
      [("customer_id", "CUST1"); ("remind_date", "2025-10-20")] "u" (fun id => Ret id).
Proof. vm_compute. reflexivity. Qed.

(** C7 as stated fails on the message: an empty [customer_id] raises
    [ValueError("customer_id is required and cannot be empty")], not
    ["customer_id required"]. *)
Lemma reminder_customer_message :
  reminder_execute env_20251020 "" "user" None None
  = Raise (ValueError "customer_id is required and cannot be empty") /\
  msg_customer_required <> "customer_id required".
Proof. split; [reflexivity | discriminate]. Qed.

(** C7 (as the code does it).  [customer_id] is checked first: blank after
    stripping gives [ValueError("customer_id is required and cannot be
    empty")]; then [performed_by]: blank gives [ValueError("performed_by is
    required and cannot be empty")].  A call to the action sink, if any, is
    made with the stripped [performed_by] and a payload holding the stripped
    [customer_id]. *)
Theorem reminder_validation_order (env : Env) (cid pb : string) (inv rd : option string) :
  (strip cid = "" ->
     reminder_execute env cid pb inv rd = Raise (ValueError msg_customer_required)) /\
  (strip cid <> "" -> strip pb = "" ->
     reminder_execute env cid pb inv rd = Raise (ValueError msg_performed_by_required)) /\
  (forall r tr o a pl who,
     run r (reminder_execute env cid pb inv rd) = (tr, o) ->
     In (CallCreateAction a pl who) tr ->
     who = strip pb /\ In ("customer_id", strip cid) pl).
Proof.
  unfold reminder_execute. rewrite !is_blank_strip.
  split; [|split].
  - intros ->. reflexivity.
  - intros Hc ->. apply String.eqb_neq in Hc. now rewrite Hc.
  - intros r tr o a pl who Hrun Hin.
    destruct (strip cid =? "") eqn:Ec; [injection Hrun as <- _; destruct Hin|].
    destruct (strip pb =? "") eqn:Ep; [injection Hrun as <- _; destruct Hin|].
    destruct (negb (fromisoformat env (default_remind_date env rd))).
    + injection Hrun as <- _. destruct Hin.
    + rewrite run_catch_reraise in Hrun. simpl in Hrun.
      destruct (create_agent_action r _ _ _); injection Hrun as <- _;
        destruct Hin as [Hc|[]]; injection Hc as <- <- <-;
        (split; [reflexivity|]);
        destruct inv as [i|]; try destruct (i =? "");
        simpl; left; reflexivity.
Qed.

(** C8 as stated fails on the message: a malformed date raises
    [ValueError("Invalid remind_date format: 13/40/2025. Expected ISO format
    (YYYY-MM-DD)")], not ["invalid remind_date format"].  (No version of
    [datetime.fromisoformat] accepts ["13/40/2025"].) *)
Lemma reminder_date_message :
  iso_calendar_date "13/40/2025" = false /\
  reminder_execute env_20251020 "C1" "u" None (Some "13/40/2025")
  = Raise (ValueError "Invalid remind_date format: 13/40/2025. Expected ISO format (YYYY-MM-DD)") /\
  msg_invalid_date "13/40/2025" <> "invalid remind_date format".
Proof. split; [reflexivity|]. split; [reflexivity | discriminate]. Qed.

(** C8 (as the code does it).  Once both identifiers pass, the date used is
    the supplied one, or today's UTC date as [YYYY-MM-DD] when none (or [""])
    is supplied; [datetime.fromisoformat] must accept it, else the call
    raises [ValueError("Invalid remind_date format: <date>. Expected ISO
    format (YYYY-MM-DD)")] and the action sink is not called.  When it is
    accepted, that date is the payload's [remind_date]. *)
Theorem reminder_date_default_and_check (env : Env) (cid pb : string)
    (inv rd : option string) :
  strip cid <> "" -> strip pb <> "" ->
  ((rd = None \/ rd = Some "") -> default_remind_date env rd = date_isoformat (utc_today env)) /\
  (fromisoformat env (default_remind_date env rd) = false ->
     forall r, run r (reminder_execute env cid pb inv rd)
               = ([], inl (ValueError (msg_invalid_date (default_remind_date env rd))))) /\
  (fromisoformat env (default_remind_date env rd) = true ->
     exists pl k, reminder_execute env cid pb inv rd
                  = CreateAgentAction "collection_reminder" pl (strip pb) k /\
                  In ("remind_date", default_remind_date env rd) pl).
Proof.
  intros Hc Hp. apply String.eqb_neq in Hc, Hp.
  unfold reminder_execute. rewrite !is_blank_strip, Hc, Hp.
  split; [|split].
  - intros [-> | ->]; reflexivity.
  - intros Hf r. rewrite Hf. reflexivity.
  - intros Ht. rewrite Ht. simpl.
    destruct inv as [i|]; [destruct (i =? "")|]; do 2 eexists; split;
      try reflexivity; simpl; right; left; reflexivity.
Qed.

(** C9.  With both identifiers present and the date accepted, the sink is
    called with action ["collection_reminder"], the stripped [performed_by]
    and the payload [{customer_id: stripped, remind_date: date}], followed
    by [invoice_id: stripped] exactly when an [invoice_id] other than [""]
    was given; otherwise the key is absent.  The sink's action id is
    returned as it is. *)
Theorem reminder_payload_exact (env : Env) (cid pb : string) (inv rd : option string) :
  strip cid <> "" -> strip pb <> "" ->
  fromisoformat env (default_remind_date env rd) = true ->
  (forall i, inv = Some i -> i <> "" ->
     reminder_execute env cid pb inv rd
     = CreateAgentAction "collection_reminder"
         [("customer_id", strip cid); ("remind_date", default_remind_date env rd);
          ("invoice_id", strip i)]
         (strip pb) (fun action_id => Ret action_id)) /\
  ((inv = None \/ inv = Some "") ->
     reminder_execute env cid pb inv rd
     = CreateAgentAction "collection_reminder"
         [("customer_id", strip cid); ("remind_date", default_remind_date env rd)]
         (strip pb) (fun action_id => Ret action_id)).
Proof.
  intros Hc Hp Ht. apply String.eqb_neq in Hc, Hp.
  unfold reminder_execute. rewrite !is_blank_strip, Hc, Hp, Ht. simpl.
  split.
  - intros i -> Hi. apply String.eqb_neq in Hi. now rewrite Hi.
  - intros [-> | ->]; reflexivity.
Qed.

(* ------------------------------------------------------------------ *)
(** ** Witnesses: the hypotheses of the claims hold on concrete inputs *)

Definition series_spec_scenario : list SalePoint :=
  [mkSale "2025-10-01" 5000; mkSale "2025-10-02" 5100; mkSale "2025-10-03" 4900;
   mkSale "2025-10-04" 5000; mkSale "2025-10-05" 10000; mkSale "2025-10-06" 1000;
   mkSale "2025-10-07" 5000].

Lemma forecast_result_fields_witness :
  (0 < 10)%Z /\
  run (sales_repo [mkSale "2025-10-01" 4000; mkSale "2025-10-02" 5000;
                   mkSale "2025-10-03" 6000]) (forecast_execute 10)
  = ([CallGetSales 60],
     inr {| forecast_days := 10;
            average_daily_cashflow := round2 (mean [4000; 5000; 6000]);
            total_forecast := round2 (mean [4000; 5000; 6000] * inject_Z 10);
            historical_period_days := 3 |}).
Proof.
  split; [reflexivity|].
  apply (forecast_result_fields 10 _ [mkSale "2025-10-01" 4000;
           mkSale "2025-10-02" 5000; mkSale "2025-10-03" 6000]).
  - reflexivity.
  - reflexivity.
  - discriminate.
Defined.

Lemma forecast_nonpositive_horizon_witness :
  Z.max (0 * 2) 60 = 60%Z /\
  exists res,
    run (sales_repo [mkSale "2025-10-01" 4000]) (forecast_execute 0)
    = ([CallGetSales 60], inr res) /\
    forecast_days res = 0%Z /\
    total_forecast res = round2 (mean [4000] * inject_Z 0) /\
    total_forecast res <= 0.
Proof.
  apply (forecast_nonpositive_horizon 0 _ [mkSale "2025-10-01" 4000]).
  - lia.
  - reflexivity.
  - discriminate.
  - intros p [<-|[]]. vm_compute. discriminate.
Defined.

Lemma detect_anomaly_iff_zscore_witness :
  let s := series_spec_scenario in
  let m := mean (map amount s) in
  let sd := stdev (map amount s) in
  let z := fun p => ((Q2R (amount p) - Q2R m) / sd)%R in
  exists res,
    snd (run (sales_repo s) (detect_execute (3 # 2) "last_60d")) = inr res /\
    (forall p, In p s ->
       ((exists a, In a (anomalies res) /\ AnomalyPoint.date a = date p)
        <-> (Q2R (3 # 2) < Rabs (z p))%R)) /\
    (forall a, In a (anomalies res) ->
       exists p, In p s /\ AnomalyPoint.date a = date p /\
         AnomalyPoint.amount a = round2 (amount p) /\
         AnomalyPoint.z_score a = round2_R (z p) /\
         (Q2R (3 # 2) < Rabs (z p))%R /\
         (AnomalyPoint.deviation a = High <-> (0 < z p)%R)).
Proof.
  apply (detect_anomaly_iff_zscore (3 # 2) "last_60d" (sales_repo series_spec_scenario)
           series_spec_scenario).
  - reflexivity.
  - vm_compute. repeat constructor.
  - vm_compute. repeat constructor.
  - simpl. repeat constructor; simpl; intuition discriminate.
Defined.

Lemma detect_insufficient_or_flat_witness :
  let s := [mkSale "2025-10-01" 5000; mkSale "2025-10-02" (10000 # 2)] in
  ((List.length s < 2)%nat ->
   snd (run (sales_repo s) (detect_execute 2 "last_30d"))
   = inl (ValueError msg_insufficient)) /\
  ((2 <= List.length s)%nat ->
   (forall x y, In x (map amount s) -> In y (map amount s) -> x == y) ->
   snd (run (sales_repo s) (detect_execute 2 "last_30d"))
   = inr {| period := "last_30d";
            total_days := Z.of_nat (List.length s);
            mean_sales := round2 (mean (map amount s));
            std_dev := 0;
            anomalies := [];
            anomaly_count := 0 |}).
Proof.
  apply (detect_insufficient_or_flat 2 "last_30d"
           (sales_repo [mkSale "2025-10-01" 5000; mkSale "2025-10-02" (10000 # 2)])).
  reflexivity.
Defined.

Lemma reminder_date_default_and_check_witness :
  ((Some "" = None \/ Some "" = Some "") ->
   default_remind_date env_20251020 (Some "") = date_isoformat (utc_today env_20251020)) /\
  (fromisoformat env_20251020 (default_remind_date env_20251020 (Some "")) = false ->
     forall r, run r (reminder_execute env_20251020 "C1" "u" (Some "INV1") (Some ""))
               = ([], inl (ValueError (msg_invalid_date
                                          (default_remind_date env_20251020 (Some "")))))) /\
  (fromisoformat env_20251020 (default_remind_date env_20251020 (Some "")) = true ->
     exists pl k, reminder_execute env_20251020 "C1" "u" (Some "INV1") (Some "")
                  = CreateAgentAction "collection_reminder" pl (strip "u") k /\
                  In ("remind_date", default_remind_date env_20251020 (Some "")) pl).
Proof.
  apply (reminder_date_default_and_check env_20251020 "C1" "u" (Some "INV1") (Some "")).
  - vm_compute. discriminate.
  - vm_compute. discriminate.
Defined.

Lemma reminder_payload_exact_witness :
  (forall i, Some "  INV1 " = Some i -> i <> "" ->
     reminder_execute env_20251020 " C1 " "u" (Some "  INV1 ") None
     = CreateAgentAction "collection_reminder"
         [("customer_id", strip " C1 ");
          ("remind_date", default_remind_date env_20251020 None);
          ("invoice_id", strip i)]
         (strip "u") (fun action_id => Ret action_id)) /\
  ((Some "  INV1 " = None \/ Some "  INV1 " = Some "") ->
     reminder_execute env_20251020 " C1 " "u" (Some "  INV1 ") None
     = CreateAgentAction "collection_reminder"
         [("customer_id", strip " C1 ");
          ("remind_date", default_remind_date env_20251020 None)]
         (strip "u") (fun action_id => Ret action_id)).
Proof.
  apply (reminder_payload_exact env_20251020 " C1 " "u" (Some "  INV1 ") None).
  - vm_compute. discriminate.
  - vm_compute. discriminate.
  - reflexivity.
Defined.

(* ------------------------------------------------------------------ *)
(** ** Properties: the order of [str] *)


Lemma str_ltb_l_irrefl (a : list ascii) : str_ltb_l a a = false.
Proof.
  induction a as [|x a IH]; simpl; [reflexivity|].
  rewrite Nat.ltb_irrefl, Nat.eqb_refl. exact IH.
Qed.

Lemma str_ltb_l_asym (a b : list ascii) :
  str_ltb_l a b = true -> str_ltb_l b a = false.
Proof.
  revert b. induction a as [|x a IH]; intros [|y b] H; simpl in *; try easy.
  destruct (Nat.ltb_spec (nat_of_ascii x) (nat_of_ascii y)).
  - destruct (Nat.ltb_spec (nat_of_ascii y) (nat_of_ascii x)); [lia|].
    destruct (Nat.eqb_spec (nat_of_ascii y) (nat_of_ascii x)); [lia|reflexivity].
  - destruct (Nat.eqb_spec (nat_of_ascii x) (nat_of_ascii y)); [|discriminate].
    rewrite e, Nat.ltb_irrefl, Nat.eqb_refl. now apply IH.
Qed.




Lemma str_ltb_asym (a b : string) : str_ltb a b = true -> str_ltb b a = false.
Proof. apply str_ltb_l_asym. Qed.

(* ------------------------------------------------------------------ *)
(** ** Properties: lists *)



(* ------------------------------------------------------------------ *)
(** ** Properties: [get_sales_series] *)

Lemma split_once_sales (u : string) : nth 1 (split_once "#" ("SALES#" ++ u)) "" = u.
Proof.
  unfold split_once. simpl. now rewrite string_of_list_ascii_of_string.
Qed.

Lemma sales_rows_in rt s e items l p :
  sales_rows rt s e items = inr l -> In p l ->
  exists it d, In it items /\ pk it = ("SALES#" ++ date p) /\
    strptime_ymd (date p) = Some d /\ (s <= toordinal d <= e)%Z /\
    float_attr rt (item_get it "amount") = inr (amount p).
Proof.
  revert l. induction items as [|it items IH]; intros l Hr Hp; simpl in Hr.
  - inversion Hr; subst. destruct Hp.
  - destruct (prefix "SALES#" (pk it)) eqn:Hpre; simpl in Hr.
    2: { destruct (IH l Hr Hp) as (it' & d & Hin & Hrest). exists it', d. split; [now right|exact Hrest]. }
    destruct (prefix_split _ _ Hpre) as [u Hu]. rewrite Hu, split_once_sales in Hr.
    destruct (strptime_ymd u) as [d|] eqn:Hd.
    2: { destruct (IH l Hr Hp) as (it' & d' & Hin & Hrest). exists it', d'. split; [now right|exact Hrest]. }
    destruct ((s <=? toordinal d)%Z && (toordinal d <=? e)%Z) eqn:Hw.
    2: { destruct (IH l Hr Hp) as (it' & d' & Hin & Hrest). exists it', d'. split; [now right|exact Hrest]. }
    destruct (float_attr rt (item_get it "amount")) as [[m|c]|a] eqn:Ha.
    + destruct (IH l Hr Hp) as (it' & d' & Hin & Hrest). exists it', d'. split; [now right|exact Hrest].
    + discriminate.
    + destruct (sales_rows rt s e items) as [err|l'] eqn:Htail; simpl in Hr; [discriminate|].
      inversion Hr; subst l. destruct Hp as [<-|Hp].
      * exists it, d. simpl. apply andb_true_iff in Hw as [Hw1 Hw2].
        apply Z.leb_le in Hw1, Hw2. repeat split; auto; lia.
      * destruct (IH l' eq_refl Hp) as (it' & d' & Hin & Hrest). exists it', d'. split; [now right|exact Hrest].
Qed.

Lemma insert_by_date_perm x l : Permutation (insert_by_date x l) (x :: l).
Proof.
  induction l as [|y l IH]; simpl; [reflexivity|].
  destruct (str_ltb (date y) (date x)); [|reflexivity].
  rewrite IH. apply perm_swap.
Qed.

Lemma sort_by_date_perm l : Permutation (sort_by_date l) l.
Proof.
  induction l as [|x l IH]; simpl; [reflexivity|].
  rewrite insert_by_date_perm. now apply perm_skip.
Qed.

Lemma insert_by_date_sorted x l :
  Sorted (fun a b => str_ltb (date b) (date a) = false) l ->
  Sorted (fun a b => str_ltb (date b) (date a) = false) (insert_by_date x l).
Proof.
  induction l as [|y l IH]; intros Hs; simpl.
  - repeat constructor.
  - destruct (str_ltb (date y) (date x)) eqn:E.
    + apply Sorted_inv in Hs as [Hs Hhd].
      constructor; [now apply IH|].
      destruct l as [|z l]; simpl.
      * constructor. now apply str_ltb_asym.
      * apply HdRel_inv in Hhd.
        destruct (str_ltb (date z) (date x)); constructor; [exact Hhd|].
        now apply str_ltb_asym.
    + constructor; [exact Hs|]. now constructor.
Qed.

Lemma sort_by_date_sorted l :
  Sorted (fun a b => str_ltb (date b) (date a) = false) (sort_by_date l).
Proof.
  induction l as [|x l IH]; simpl; [constructor|]. now apply insert_by_date_sorted.
Qed.

Lemma scan_page_in (t : Table) it : In it (scan_page t) -> In it (table_items t).
Proof.
  unfold scan_page. intros H.
  rewrite <- (firstn_skipn (table_page t) (table_items t)). apply in_or_app. now left.
Qed.


Lemma dynamo_sales_inv rt t days l :
  dynamo_get_sales_series rt t days = inr l ->
  exists rows,
    sales_window rt days
    = inr ((toordinal (rt_today rt) - (days - 1))%Z, toordinal (rt_today rt)) /\
    table_fault t = None /\
    sales_rows rt (toordinal (rt_today rt) - (days - 1))%Z (toordinal (rt_today rt))
      (filter (fun it => prefix "SALES#" (pk it)) (scan_page t)) = inr rows /\
    l = sort_by_date rows.
Proof.
  unfold dynamo_get_sales_series.
  destruct (sales_window rt days) as [e|[s e]] eqn:Hw; simpl; [discriminate|].
  assert (Hse : s = (toordinal (rt_today rt) - (days - 1))%Z /\ e = toordinal (rt_today rt)).
  { unfold sales_window in Hw.
    destruct (timedelta_max_days <? Z.abs (days - 1))%Z; [discriminate|].
    destruct (_ && _)%bool; [|discriminate]. inversion Hw. auto. }
  destruct Hse as [-> ->].
  unfold scan. destruct (table_fault t) as [c|] eqn:Hf; simpl; [discriminate|].
  destruct (sales_rows _ _ _ _) as [err|rows] eqn:Hr; simpl; [discriminate|].
  intros H. inversion H. exists rows. auto.
Qed.

Lemma sales_rows_empty_window rt s e items :
  (e < s)%Z -> sales_rows rt s e items = inr [].
Proof.
  intros Hlt. induction items as [|it items IH]; simpl; [reflexivity|].
  destruct (prefix "SALES#" (pk it)); simpl; [|exact IH].
  destruct (strptime_ymd _) as [d|]; [|exact IH].
  replace ((s <=? toordinal d)%Z && (toordinal d <=? e)%Z) with false; [exact IH|].
  symmetry. apply andb_false_iff.
  destruct (Z.leb_spec s (toordinal d)); [right; apply Z.leb_gt; lia | now left].
Qed.

Lemma sales_series_empty_window rt t days :
  (days <= 0)%Z -> (1 <= toordinal (rt_today rt))%Z ->
  (toordinal (rt_today rt) + (1 - days) <= max_ordinal)%Z ->
  dynamo_get_sales_series rt t days = sbind (scan t "SALES#" None) (fun _ => inr []).
Proof.
  intros Hd H1 H2. unfold dynamo_get_sales_series, sales_window, max_ordinal,
    timedelta_max_days in *.
  replace (999999999 <? Z.abs (days - 1))%Z with false by (symmetry; apply Z.ltb_ge; lia).
  replace ((1 <=? toordinal (rt_today rt) - (days - 1))%Z
           && (toordinal (rt_today rt) - (days - 1) <=? 3652059)%Z) with true
    by (symmetry; apply andb_true_iff; split; apply Z.leb_le; lia).
  simpl. destruct (scan t "SALES#" None) as [err|items]; simpl; [reflexivity|].
  rewrite sales_rows_empty_window by lia. reflexivity.
Qed.

Lemma sales_rows_cons_fails rt s e x items :
  (exists err, sales_rows rt s e items = inl err) ->
  exists err, sales_rows rt s e (x :: items) = inl err.
Proof.
  intros [err Herr]. simpl.
  destruct (prefix "SALES#" (pk x)); simpl; [|eauto].
  destruct (strptime_ymd _) as [d|]; [|eauto].
  destruct (_ && _)%bool; [|eauto].
  destruct (float_attr rt (item_get x "amount")) as [[m|c]|a]; eauto.
  rewrite Herr. simpl. eauto.
Qed.

Lemma sales_rows_fails rt s e items it ds d :
  In it items -> pk it = ("SALES#" ++ ds) -> strptime_ymd ds = Some d ->
  (s <= toordinal d <= e)%Z ->
  match item_get it "amount" with
  | Some ANull | Some (AMap _) | Some AOther => True
  | _ => False
  end ->
  exists err, sales_rows rt s e items = inl err.
Proof.
  intros Hin Hpk Hd Hw Ha. induction items as [|x items IH]; [destruct Hin|].
  destruct Hin as [->|Hin]; [|apply sales_rows_cons_fails; now apply IH].
  cbn [sales_rows]. rewrite Hpk, prefix_append. cbn [negb]. rewrite split_once_sales, Hd.
  replace ((s <=? toordinal d)%Z && (toordinal d <=? e)%Z) with true
    by (symmetry; apply andb_true_iff; split; apply Z.leb_le; lia).
  unfold float_attr.
  destruct (item_get it "amount") as [[]|]; try contradiction; eauto.
Qed.


Lemma sales_rows_complete rt s e items l it ds d a :
  sales_rows rt s e items = inr l -> In it items -> pk it = ("SALES#" ++ ds) ->
  strptime_ymd ds = Some d -> (s <= toordinal d <= e)%Z ->
  float_attr rt (item_get it "amount") = inr a ->
  In {| date := ds; amount := a |} l.
Proof.
  intros Hr Hin Hpk Hd Hw Ha. revert l Hr.
  induction items as [|x items IH]; intros l Hr; [destruct Hin|].
  destruct Hin as [->|Hin].
  - cbn [sales_rows] in Hr. rewrite Hpk, prefix_append in Hr. cbn [negb] in Hr.
    rewrite split_once_sales, Hd in Hr.
    replace ((s <=? toordinal d)%Z && (toordinal d <=? e)%Z) with true in Hr
      by (symmetry; apply andb_true_iff; split; apply Z.leb_le; lia).
    rewrite Ha in Hr.
    destruct (sales_rows rt s e items); simpl in Hr; [discriminate|].
    inversion Hr. now left.
  - simpl in Hr.
    destruct (prefix "SALES#" (pk x)); simpl in Hr; [|now apply IH].
    destruct (strptime_ymd (nth 1 (split_once "#" (pk x)) "")) as [d'|];
      [|now apply IH].
    destruct ((s <=? toordinal d')%Z && (toordinal d' <=? e)%Z); [|now apply IH].
    destruct (float_attr rt (item_get x "amount")) as [[m|c]|a'];
      [now apply IH|discriminate|].
    destruct (sales_rows rt s e items) as [err|l'] eqn:E; simpl in Hr; [discriminate|].
    inversion Hr. right. now apply IH.
Qed.

(* ------------------------------------------------------------------ *)
(** ** Properties: [isoformat] read back by [strptime] *)

Lemma zero_pad4_year_check :
  forallb (fun n =>
    match list_ascii_of_string (zero_pad 4 (Z.of_nat n)) with
    | [a; b; c; d] =>
        forallb (digit_in 48 57) [a; b; c; d]
        && (1000 * dval a + 100 * dval b + 10 * dval c + dval d =? Z.of_nat n)%Z
    | _ => false
    end) (seq 1 (Z.to_nat 9999)) = true.
Proof. vm_compute. reflexivity. Qed.

Lemma month_day_check :
  forallb (fun m => forallb (fun d =>
    match first_month_day (month_alts (list_ascii_of_string (zero_pad 2 (Z.of_nat m))
                                       ++ "-"%char :: list_ascii_of_string (zero_pad 2 (Z.of_nat d)))%list) with
    | Some (m', d', []) => (m' =? Z.of_nat m)%Z && (d' =? Z.of_nat d)%Z
    | _ => false
    end) (seq 1 31)) (seq 1 12) = true.
Proof. vm_compute. reflexivity. Qed.

Lemma days_in_month_le_31 y m : (days_in_month y m <= 31)%Z.
Proof.
  unfold days_in_month.
  destruct (m =? 2)%Z; [destruct (_ || _)%bool; lia|].
  destruct (existsb _ _); lia.
Qed.

Lemma strptime_isoformat (y m d : Z) :
  (1 <= y <= 9999)%Z -> (1 <= m <= 12)%Z -> (1 <= d <= days_in_month y m)%Z ->
  strptime_ymd (date_isoformat (y, m, d)) = Some (y, m, d).
Proof.
  intros Hy Hm Hd. pose proof (days_in_month_le_31 y m) as H31.
  pose proof zero_pad4_year_check as HY. rewrite forallb_forall in HY.
  specialize (HY (Z.to_nat y) ltac:(apply in_seq; lia)).
  rewrite Z2Nat.id in HY by lia.
  pose proof month_day_check as HMD. rewrite forallb_forall in HMD.
  specialize (HMD (Z.to_nat m) ltac:(apply in_seq; lia)).
  rewrite forallb_forall in HMD.
  specialize (HMD (Z.to_nat d) ltac:(apply in_seq; lia)).
  rewrite !Z2Nat.id in HMD by lia.
  unfold strptime_ymd, date_isoformat.
  rewrite !list_ascii_of_string_append.
  destruct (list_ascii_of_string (zero_pad 4 y)) as [|a [|b [|c [|e [|? ?]]]]];
    try discriminate.
  apply andb_true_iff in HY as [Hdig Hval]. apply Z.eqb_eq in Hval.
  destruct (first_month_day _) as [[[m' d'] [|? ?]]|] eqn:Hf; try discriminate.
  apply andb_true_iff in HMD as [Hm' Hd']. apply Z.eqb_eq in Hm', Hd'. subst m' d'.
  cbn [app list_ascii_of_string ymd_regex]. rewrite Hdig. simpl Ascii.eqb. cbn iota beta.
  rewrite Hf, Hval. cbn [andb]. cbn iota beta.
  replace ((1 <=? y)%Z && (d <=? days_in_month y m)%Z) with true
    by (symmetry; apply andb_true_iff; split; apply Z.leb_le; lia).
  reflexivity.
Qed.

(* ------------------------------------------------------------------ *)
(** ** Properties: [list_agent_actions] *)





Lemma list_actions_inv t limit l :
  dynamo_list_agent_actions t limit = inr l ->
  (1 <= limit)%Z /\ table_fault t = None /\
  l = firstn (Z.to_nat limit)
        (sort_by_ts_desc (map action_view
           (filter (fun it => prefix "ACTION#" (pk it))
              (firstn (Z.to_nat (limit * 2)) (scan_page t))))).
Proof.
  unfold dynamo_list_agent_actions, scan.
  destruct (table_fault t) as [c|] eqn:Hf; simpl; [discriminate|].
  destruct (limit * 2 <? 1)%Z eqn:Hl; simpl; [discriminate|].
  apply Z.ltb_ge in Hl.
  destruct (_ && _)%bool; [discriminate|].
  intros H. inversion H. unfold py_slice_to.
  replace (0 <=? limit)%Z with true by (symmetry; apply Z.leb_le; lia).
  split; [lia|split; reflexivity].
Qed.


Lemma list_actions_type_error t limit it :
  table_fault t = None -> (1 <= limit)%Z ->
  (2 <= List.length (filter (fun x => prefix "ACTION#" (pk x))
                       (firstn (Z.to_nat (limit * 2)) (scan_page t))))%nat ->
  In it (filter (fun x => prefix "ACTION#" (pk x)) (firstn (Z.to_nat (limit * 2)) (scan_page t))) ->
  item_get it "timestamp" = None ->
  dynamo_list_agent_actions t limit = inl (RepoError "TypeError").
Proof.
  intros Hf Hl Hlen Hin Hts. unfold dynamo_list_agent_actions, scan. rewrite Hf.
  replace (limit * 2 <? 1)%Z with false by (symmetry; apply Z.ltb_ge; lia).
  simpl sbind. rewrite length_map.
  replace (forallb _ _) with false.
  - destruct (List.length _) as [|[|n]]; [lia|lia|reflexivity].
  - symmetry. apply not_true_iff_false. rewrite forallb_forall. intros Hall.
    specialize (Hall (action_view it) (in_map _ _ _ Hin)).
    unfold ts_string, action_view in Hall. simpl in Hall. rewrite Hts in Hall. discriminate.
Qed.

(* ------------------------------------------------------------------ *)
(** ** Properties: [get_ar_aging] *)

Lemma customer_of_pk_ar (u : string) : customer_of_pk ("AR_AGING#" ++ u) = u.
Proof.
  unfold customer_of_pk, split_once. simpl.
  now rewrite string_of_list_ascii_of_string.
Qed.

Lemma ar_rows_rel rt items rows :
  ar_rows rt items = inr rows -> Forall2 (fun it row => ar_row rt it = inr row) items rows.
Proof.
  revert rows. induction items as [|it items IH]; intros rows H; simpl in H.
  - inversion H. constructor.
  - destruct (ar_row rt it) as [e|row] eqn:Hr; simpl in H; [discriminate|].
    destruct (ar_rows rt items) as [e|rows'] eqn:Hrs; simpl in H; [discriminate|].
    inversion H. constructor; auto.
Qed.

Lemma ar_row_fields rt it row :
  ar_row rt it = inr row ->
  customer_id row = customer_of_pk (pk it) /\
  float_attr rt (item_get it "total") = inr (total row).
Proof.
  unfold ar_row.
  destruct (float_attr rt (item_get it "current")); simpl; [discriminate|].
  destruct (float_attr rt (item_get it "days_30")); simpl; [discriminate|].
  destruct (float_attr rt (item_get it "days_60")); simpl; [discriminate|].
  destruct (float_attr rt (item_get it "days_90")); simpl; [discriminate|].
  destruct (float_attr rt (item_get it "days_over_90")); simpl; [discriminate|].
  destruct (float_attr rt (item_get it "total")); simpl; [discriminate|].
  intros H. inversion H. auto.
Qed.

(* ------------------------------------------------------------------ *)
(** ** Properties: [str.split] and [str.strip] *)

Lemma split_ws_l_word l r cur :
  (forall c, In c l -> is_space c = false) ->
  split_ws_l (l ++ r) cur = split_ws_l r (rev l ++ cur).
Proof.
  revert cur. induction l as [|c l IH]; intros cur Hl; simpl; [reflexivity|].
  rewrite (Hl c (or_introl eq_refl)), IH by (intros x Hx; apply Hl; now right).
  now rewrite <- app_assoc.
Qed.

Lemma split_ws_l_concat (toks : list string) :
  (forall t, In t toks -> t <> "" /\
     forall c, In c (list_ascii_of_string t) -> is_space c = false) ->
  split_ws_l (list_ascii_of_string (String.concat " " toks)) []
  = map list_ascii_of_string toks.
Proof.
  induction toks as [|t toks IH]; intros Ht; [reflexivity|].
  destruct (Ht t (or_introl eq_refl)) as [Hne Hsp].
  assert (Hrev : rev (list_ascii_of_string t) <> []).
  { intros E. apply Hne. destruct t as [|c t]; [reflexivity|].
    simpl in E. destruct (rev (list_ascii_of_string t)); discriminate. }
  destruct toks as [|t2 toks].
  - simpl String.concat.
    rewrite <- (app_nil_r (list_ascii_of_string t)), split_ws_l_word by exact Hsp.
    rewrite app_nil_r. simpl.
    destruct (rev (list_ascii_of_string t)) eqn:E; [contradiction|].
    rewrite <- E, rev_involutive. reflexivity.
  - change (String.concat " " (t :: t2 :: toks))
      with (t ++ " " ++ String.concat " " (t2 :: toks)).
    rewrite !list_ascii_of_string_append, split_ws_l_word by exact Hsp.
    change (list_ascii_of_string " ") with [" "%char].
    rewrite app_nil_r. cbn [app split_ws_l].
    replace (is_space " ") with true by reflexivity.
    destruct (rev (list_ascii_of_string t)) eqn:E; [contradiction|].
    rewrite <- E, rev_involutive, IH; [reflexivity|].
    intros x Hx. apply Ht. now right.
Qed.

Lemma py_split_concat (toks : list string) :
  (forall t, In t toks -> t <> "" /\
     forall c, In c (list_ascii_of_string t) -> is_space c = false) ->
  py_split (String.concat " " toks) = toks.
Proof.
  intros Ht. unfold py_split. rewrite split_ws_l_concat by exact Ht.
  rewrite map_map. erewrite map_ext; [apply map_id|].
  intros x. apply string_of_list_ascii_of_string.
Qed.

Lemma lstrip_l_idem l : lstrip_l (lstrip_l l) = lstrip_l l.
Proof.
  induction l as [|c l IH]; simpl; [reflexivity|].
  destruct (is_space c) eqn:E; [exact IH|]. simpl. now rewrite E.
Qed.

Lemma lstrip_l_snoc l c :
  is_space c = false -> lstrip_l (l ++ [c]) = (lstrip_l l ++ [c])%list.
Proof.
  intros Hc. induction l as [|x l IH]; simpl; [now rewrite Hc|].
  destruct (is_space x); [exact IH|reflexivity].
Qed.

Lemma lstrip_l_head l :
  lstrip_l l = [] \/ exists c r, lstrip_l l = c :: r /\ is_space c = false.
Proof.
  induction l as [|c l IH]; simpl; [now left|].
  destruct (is_space c) eqn:E; [exact IH|]. right. eauto.
Qed.

Lemma strip_idem (s : string) : strip (strip s) = strip s.
Proof.
  unfold strip. rewrite list_ascii_of_string_of_list_ascii.
  set (L1 := lstrip_l (list_ascii_of_string s)).
  assert (HL1 : lstrip_l L1 = L1) by apply lstrip_l_idem.
  assert (Hfix : lstrip_l (rev (lstrip_l (rev L1))) = rev (lstrip_l (rev L1))).
  { destruct (lstrip_l_head (list_ascii_of_string s)) as [E|(c & r & E & Hc)];
      fold L1 in E; rewrite E; [reflexivity|].
    simpl. rewrite lstrip_l_snoc, rev_app_distr by exact Hc. simpl. now rewrite Hc. }
  rewrite Hfix, rev_involutive, lstrip_l_idem. reflexivity.
Qed.

(* ------------------------------------------------------------------ *)
(** ** More helper facts *)

Lemma sales_rows_error rt s e items err :
  sales_rows rt s e items = inl err -> err = RepoError "TypeError".
Proof.
  induction items as [|it items IH]; simpl; [discriminate|].
  destruct (prefix "SALES#" (pk it)); simpl; [|exact IH].
  destruct (strptime_ymd _) as [d|]; [|exact IH].
  destruct (_ && _)%bool; [|exact IH].
  unfold float_attr.
  destruct (item_get it "amount") as [[q|str|b| |kv|]|]; simpl;
    try (intros H; inversion H; reflexivity);
    try (destruct (sales_rows rt s e items) eqn:E; simpl; [intros H; inversion H; subst; now apply IH|discriminate]).
  destruct (float_of_str rt str); simpl; [|exact IH].
  destruct (sales_rows rt s e items) eqn:E; simpl; [intros H; inversion H; subst; now apply IH|discriminate].
Qed.

Lemma forecast_calls h r : fst (run r (forecast_execute h)) = [CallGetSales (Z.max (h * 2) 60)].
Proof.
  destruct (get_sales_series r (Z.max (h * 2) 60)) as [e|[|x s]] eqn:E.
  - now rewrite (forecast_run_error _ _ _ E).
  - now rewrite (forecast_run_empty _ _ E).
  - rewrite (forecast_run_ok _ _ _ E) by discriminate. reflexivity.
Qed.

Lemma parse_reminder_customer_nonblank b rq :
  parse_reminder_request b = Some rq -> is_blank (rq_customer_id rq) = false.
Proof.
  destruct b as [| | | | | |kv]; simpl; try discriminate.
  destruct (assoc "customer_id" kv) as [[| | | |c| |]|]; try discriminate.
  destruct (opt_str_field kv "invoice_id"); [|discriminate].
  destruct (opt_str_field kv "remind_date"); [|discriminate].
  destruct (is_blank c) eqn:Hc; [discriminate|]. intros H. inversion H. simpl.
  rewrite is_blank_strip, strip_idem, <- is_blank_strip. exact Hc.
Qed.

(* ------------------------------------------------------------------ *)
(** ** Properties: the repository, the handlers and [require_scope] *)

(** X1: every point [get_sales_series] returns comes from a [SALES#] item
    whose key is [SALES#] and the point's date, a date of the window. *)
Theorem dynamo_sales_series_point_source rt t days l p :
  dynamo_get_sales_series rt t days = inr l -> In p l ->
  exists it d, In it (table_items t) /\ pk it = ("SALES#" ++ date p) /\
    strptime_ymd (date p) = Some d /\
    (toordinal (rt_today rt) - (days - 1) <= toordinal d <= toordinal (rt_today rt))%Z /\
    float_attr rt (item_get it "amount") = inr (amount p).
Proof.
  intros H Hp. apply dynamo_sales_inv in H as (rows & _ & _ & Hr & ->).
  apply (Permutation_in _ (sort_by_date_perm rows)) in Hp.
  destruct (sales_rows_in _ _ _ _ _ _ Hr Hp) as (it & d & Hin & Hrest).
  exists it, d. split; [|exact Hrest]. apply scan_page_in. now apply filter_In in Hin.
Qed.

Lemma dynamo_sales_series_point_source_witness :
  dynamo_get_sales_series rt_sample table_sample 30
    = inr [{| date := "2025-10-18"; amount := 120 |}; {| date := "2025-10-19"; amount := 80 |}] /\
  exists it d, In it (table_items table_sample) /\ pk it = ("SALES#" ++ "2025-10-19") /\
    strptime_ymd "2025-10-19" = Some d /\
    (toordinal (rt_today rt_sample) - (30 - 1) <= toordinal d <= toordinal (rt_today rt_sample))%Z /\
    float_attr rt_sample (item_get it "amount") = inr 80.
Proof.
  split; [vm_compute; reflexivity|].
  apply (dynamo_sales_series_point_source rt_sample table_sample 30
           [{| date := "2025-10-18"; amount := 120 |}; {| date := "2025-10-19"; amount := 80 |}]
           {| date := "2025-10-19"; amount := 80 |}).
  - vm_compute. reflexivity.
  - simpl. auto.
Defined.

(** X2: [get_sales_series] returns its points in ascending order of their
    date strings. *)
Theorem dynamo_sales_series_sorted rt t days l :
  dynamo_get_sales_series rt t days = inr l ->
  Sorted (fun a b => str_ltb (date b) (date a) = false) l.
Proof.
  intros H. apply dynamo_sales_inv in H as (rows & _ & _ & _ & ->).
  apply sort_by_date_sorted.
Qed.

Lemma dynamo_sales_series_sorted_witness :
  Sorted (fun a b => str_ltb (date b) (date a) = false)
    [{| date := "2025-10-18"; amount := 120 |}; {| date := "2025-10-19"; amount := 80 |}].
Proof.
  apply (dynamo_sales_series_sorted rt_sample table_sample 30). vm_compute. reflexivity.
Defined.

(** X3: an item the [Scan] request reads, keyed [SALES#YYYY-MM-DD] (the
    [isoformat] of a date of the window), whose amount [float] accepts, is
    returned. *)
Theorem dynamo_sales_series_complete rt t days l it y m dd a :
  dynamo_get_sales_series rt t days = inr l -> In it (scan_page t) ->
  pk it = ("SALES#" ++ date_isoformat (y, m, dd)) ->
  (1 <= y <= 9999)%Z -> (1 <= m <= 12)%Z -> (1 <= dd <= days_in_month y m)%Z ->
  (toordinal (rt_today rt) - (days - 1) <= toordinal (y, m, dd) <= toordinal (rt_today rt))%Z ->
  float_attr rt (item_get it "amount") = inr a ->
  In {| date := date_isoformat (y, m, dd); amount := a |} l.
Proof.
  intros H Hin Hpk Hy Hm Hd Hw Ha.
  apply dynamo_sales_inv in H as (rows & _ & _ & Hr & ->).
  apply (Permutation_in _ (Permutation_sym (sort_by_date_perm rows))).
  eapply sales_rows_complete; [exact Hr| | exact Hpk | | exact Hw | exact Ha].
  - apply filter_In. split; [exact Hin|]. rewrite Hpk. apply prefix_append.
  - now apply strptime_isoformat.
Qed.

Lemma dynamo_sales_series_complete_witness :
  In {| date := date_isoformat (2025, 10, 18)%Z; amount := 120 |}
     [{| date := "2025-10-18"; amount := 120 |}; {| date := "2025-10-19"; amount := 80 |}].
Proof.
  apply (dynamo_sales_series_complete rt_sample table_sample 30 _
           (mkItem "SALES#2025-10-18" [("amount", AN 120)]) 2025 10 18 120).
  all: try (vm_compute; reflexivity); try lia; try (simpl; auto; fail).
  all: vm_compute; split; discriminate.
Defined.

(** X4: with [days <= 0], while today's ordinal plus [1 - days] stays within
    [date.max], the window is empty: [get_sales_series] returns no point (or
    the error of the scan). *)
Theorem dynamo_sales_series_nonpositive_days rt t days :
  (days <= 0)%Z -> (1 <= toordinal (rt_today rt))%Z ->
  (toordinal (rt_today rt) + (1 - days) <= max_ordinal)%Z ->
  dynamo_get_sales_series rt t days
  = match table_fault t with Some c => inl (RepoError c) | None => inr [] end.
Proof.
  intros Hd H1 H2. rewrite sales_series_empty_window by assumption.
  unfold scan. now destruct (table_fault t).
Qed.

Lemma dynamo_sales_series_nonpositive_days_witness :
  dynamo_get_sales_series rt_sample table_sample 0 = inr [].
Proof.
  apply (dynamo_sales_series_nonpositive_days rt_sample table_sample 0);
    vm_compute; try reflexivity; discriminate.
Defined.

(** X5: more days than the ordinal of today put the window's start before
    [date.min]: [get_sales_series] raises [OverflowError]. *)
Theorem dynamo_sales_series_overflow rt t days :
  (toordinal (rt_today rt) < days)%Z ->
  dynamo_get_sales_series rt t days = inl (RepoError "OverflowError").
Proof.
  intros H. unfold dynamo_get_sales_series, sales_window.
  destruct (timedelta_max_days <? Z.abs (days - 1))%Z; [reflexivity|].
  replace ((1 <=? toordinal (rt_today rt) - (days - 1))%Z && _)%bool with false;
    [reflexivity|].
  symmetry. apply andb_false_iff. left. apply Z.leb_gt. lia.
Qed.

Lemma dynamo_sales_series_overflow_witness :
  dynamo_get_sales_series rt_sample table_sample 1000000 = inl (RepoError "OverflowError").
Proof. apply dynamo_sales_series_overflow. vm_compute. reflexivity. Defined.



(** X7: an item the [Scan] request reads, dated in the window, whose amount is null, a map or another
    non-numeric type makes [get_sales_series] raise [TypeError]. *)
Theorem dynamo_sales_series_bad_amount_fails rt t days it ds d :
  table_fault t = None -> In it (scan_page t) -> pk it = ("SALES#" ++ ds) ->
  strptime_ymd ds = Some d ->
  (1 <= toordinal (rt_today rt) - (days - 1))%Z -> (toordinal (rt_today rt) <= max_ordinal)%Z ->
  (toordinal (rt_today rt) - (days - 1) <= toordinal d <= toordinal (rt_today rt))%Z ->
  match item_get it "amount" with
  | Some ANull | Some (AMap _) | Some AOther => True
  | _ => False
  end ->
  dynamo_get_sales_series rt t days = inl (RepoError "TypeError").
Proof.
  intros Hf Hin Hpk Hd H1 H2 Hw Ha. unfold dynamo_get_sales_series, sales_window.
  unfold max_ordinal, timedelta_max_days in *.
  replace (999999999 <? Z.abs (days - 1))%Z with false by (symmetry; apply Z.ltb_ge; lia).
  replace ((1 <=? toordinal (rt_today rt) - (days - 1))%Z
           && (toordinal (rt_today rt) - (days - 1) <=? 3652059)%Z) with true
    by (symmetry; apply andb_true_iff; split; apply Z.leb_le; lia).
  simpl sbind. unfold scan. rewrite Hf. simpl sbind.
  assert (Hin' : In it (filter (fun it => prefix "SALES#" (pk it)) (scan_page t))).
  { apply filter_In. split; [exact Hin|]. rewrite Hpk. apply prefix_append. }
  destruct (sales_rows_fails rt _ _ _ _ _ _ Hin' Hpk Hd Hw Ha) as [err Herr].
  rewrite Herr. simpl. now rewrite (sales_rows_error _ _ _ _ _ Herr).
Qed.

Lemma dynamo_sales_series_bad_amount_fails_witness :
  dynamo_get_sales_series rt_sample (mkTable [mkItem "SALES#2025-10-18" [("amount", ANull)]] 1 None) 30
  = inl (RepoError "TypeError").
Proof.
  apply (dynamo_sales_series_bad_amount_fails rt_sample _ 30
           (mkItem "SALES#2025-10-18" [("amount", ANull)]) "2025-10-18" (2025, 10, 18)%Z).
  all: try (vm_compute; reflexivity); try (simpl; auto; fail).
  all: vm_compute; try split; discriminate.
Defined.

(** X8: over the DynamoDB repository, a period of zero or fewer days
    ([last_0d]), while today's ordinal plus [1 - days] stays within
    [date.max], makes anomaly detection raise "insufficient data". *)
Theorem detect_dynamo_nonpositive_period th per rt t :
  table_fault t = None -> (fst (parse_period_days per) <= 0)%Z ->
  (1 <= toordinal (rt_today rt))%Z ->
  (toordinal (rt_today rt) + (1 - fst (parse_period_days per)) <= max_ordinal)%Z ->
  run (dynamo_repo rt t) (detect_execute th per)
  = ([CallGetSales (fst (parse_period_days per))], inl (ValueError msg_insufficient)).
Proof.
  intros Hf Hd H1 H2. apply detect_run_short with [].
  - simpl. rewrite sales_series_empty_window by assumption.
    unfold scan. now rewrite Hf.
  - simpl. lia.
Qed.

Lemma detect_dynamo_nonpositive_period_witness :
  run (dynamo_repo rt_sample table_sample) (detect_execute 2 "last_0d")
  = ([CallGetSales 0], inl (ValueError msg_insufficient)).
Proof.
  apply (detect_dynamo_nonpositive_period 2 "last_0d" rt_sample table_sample);
    vm_compute; try reflexivity; discriminate.
Defined.



(** X10: when the [Scan] request returns two actions or more and one of them has no
    [timestamp], the sort compares [None] and [list_agent_actions] raises
    [TypeError]. *)
Theorem dynamo_list_actions_missing_timestamp t limit it :
  table_fault t = None -> (1 <= limit)%Z ->
  (2 <= List.length (filter (fun x => prefix "ACTION#" (pk x))
                       (firstn (Z.to_nat (limit * 2)) (scan_page t))))%nat ->
  In it (filter (fun x => prefix "ACTION#" (pk x)) (firstn (Z.to_nat (limit * 2)) (scan_page t))) ->
  item_get it "timestamp" = None ->
  dynamo_list_agent_actions t limit = inl (RepoError "TypeError").
Proof. apply list_actions_type_error. Qed.

Lemma dynamo_list_actions_missing_timestamp_witness :
  dynamo_list_agent_actions (mkTable [action_a1; action_a3] 2 None) 50 = inl (RepoError "TypeError").
Proof.
  apply (dynamo_list_actions_missing_timestamp _ 50 action_a3).
  - reflexivity.
  - lia.
  - vm_compute. lia.
  - simpl. auto.
  - reflexivity.
Defined.

(** X12: [get_ar_aging] gives one row per [AR_AGING#] item its [Scan]
    request reads, in scan order;
    a row's [customer_id] is the key after [AR_AGING#] and its [total] is
    the item's. *)
Theorem dynamo_ar_aging_rows rt t rows :
  dynamo_get_ar_aging rt t = inr rows ->
  Forall2 (fun it row => pk it = ("AR_AGING#" ++ customer_id row) /\
                         float_attr rt (item_get it "total") = inr (total row))
    (filter (fun it => prefix "AR_AGING#" (pk it)) (scan_page t)) rows.
Proof.
  unfold dynamo_get_ar_aging, scan.
  destruct (table_fault t); simpl; [discriminate|]. intros H.
  apply ar_rows_rel in H.
  assert (Hp : Forall (fun it => prefix "AR_AGING#" (pk it) = true)
                 (filter (fun it => prefix "AR_AGING#" (pk it)) (scan_page t))).
  { apply Forall_forall. intros x Hx. now apply filter_In in Hx. }
  revert Hp. induction H as [|it row its rows' Hr Hrs IH]; intros Hp; constructor.
  - apply Forall_inv in Hp. destruct (prefix_split _ _ Hp) as [u Hu].
    destruct (ar_row_fields _ _ _ Hr) as [Hc Ht]. split; [|exact Ht].
    rewrite Hc, Hu, customer_of_pk_ar. reflexivity.
  - apply IH. now apply Forall_inv_tail in Hp.
Qed.

Lemma dynamo_ar_aging_rows_witness :
  Forall2 (fun it row => pk it = ("AR_AGING#" ++ customer_id row) /\
                         float_attr rt_sample (item_get it "total") = inr (total row))
    [mkItem "AR_AGING#C1" [("customer_name", AS "Acme"); ("current", AN 100); ("total", AN 250)]]
    [{| customer_id := "C1"; customer_name := AS "Acme"; current := 100; days_30 := 0;
        days_60 := 0; days_90 := 0; days_over_90 := 0; total := 250 |}].
Proof.
  apply (dynamo_ar_aging_rows rt_sample table_sample). vm_compute. reflexivity.
Defined.

(** X13: without an item keyed [KPI#<period>], [get_kpis] returns zeros. *)
Theorem dynamo_kpis_default rt t period :
  table_fault t = None ->
  (forall it, In it (table_items t) -> pk it <> ("KPI#" ++ period)) ->
  dynamo_get_kpis rt t period = inr (mkKPIs 0 0 0 0).
Proof.
  intros Hf Hn. unfold dynamo_get_kpis, get_item. rewrite Hf. simpl.
  destruct (find _ _) as [it|] eqn:E; [|reflexivity].
  apply find_some in E as [Hin Heq]. apply String.eqb_eq in Heq.
  exfalso. exact (Hn it Hin Heq).
Qed.

Lemma dynamo_kpis_default_witness :
  dynamo_get_kpis rt_sample table_sample "last_30d" = inr (mkKPIs 0 0 0 0).
Proof.
  apply dynamo_kpis_default; [reflexivity|].
  intros it Hin. simpl in Hin.
  repeat (destruct Hin as [<-|Hin]; [discriminate|]). destruct Hin.
Defined.

(** X14: without JWT claims in the event ([KeyError]), [require_scope]
    answers 401 "Missing or invalid JWT claims" and does not run the
    handler. *)
Theorem require_scope_missing_claims req (h : Event -> list call * Resp) ev :
  get_claims_from_event ev = inl PyKeyError ->
  require_scope req h ev = ([], Respond (unauthorized msg_missing_claims)).
Proof. intros H. unfold require_scope. now rewrite H. Qed.

Lemma require_scope_missing_claims_witness :
  require_scope "agent:actions" (fun _ => ([], ok JNull 200)) []
  = ([], Respond (unauthorized msg_missing_claims)).
Proof. apply require_scope_missing_claims. reflexivity. Defined.

(** X15: with a [scope] claim made of whitespace-free tokens joined by
    single spaces, [require_scope] runs the handler exactly when the
    required scope is one of the tokens, and otherwise answers 401
    "Insufficient permissions. Required scope: ...". *)
Theorem require_scope_tokens req (h : Event -> list call * Resp) ev kv toks :
  get_claims_from_event ev = inr (JObj kv) ->
  assoc "scope" kv = Some (JStr (String.concat " " toks)) ->
  (forall tk, In tk toks -> tk <> "" /\
     forall c, In c (list_ascii_of_string tk) -> is_space c = false) ->
  require_scope req h ev
  = if existsb (String.eqb req) toks then (fst (h ev), Respond (snd (h ev)))
    else ([], Respond (unauthorized (msg_insufficient_scope req))).
Proof.
  intros Hc Hs Ht. unfold require_scope. rewrite Hc. simpl dict_get. rewrite Hs.
  cbn iota. unfold scope_list. rewrite py_split_concat by exact Ht.
  destruct (existsb (String.eqb req) toks); [|reflexivity].
  now destruct (h ev).
Qed.

Lemma require_scope_tokens_witness :
  require_scope "agent:actions" (fun _ => ([], ok JNull 200)) (event_with claims_sample [])
  = ([], Respond (ok JNull 200)) /\
  require_scope "admin" (fun _ => ([], ok JNull 200)) (event_with claims_sample [])
  = ([], Respond (unauthorized (msg_insufficient_scope "admin"))).
Proof.
  assert (Ht : forall tk, In tk ["openid"; "agent:actions"] -> tk <> "" /\
                 forall c, In c (list_ascii_of_string tk) -> is_space c = false).
  { intros tk Htk. simpl in Htk.
    repeat (destruct Htk as [<-|Htk];
            [split; [discriminate|]; intros c Hc; simpl in Hc;
             repeat (destruct Hc as [<-|Hc]; [reflexivity|]); destruct Hc|]).
    destruct Htk. }
  split.
  - exact (require_scope_tokens "agent:actions" (fun _ => ([], ok JNull 200))
             (event_with claims_sample []) claims_sample ["openid"; "agent:actions"]
             eq_refl eq_refl Ht).
  - exact (require_scope_tokens "admin" (fun _ => ([], ok JNull 200))
             (event_with claims_sample []) claims_sample ["openid"; "agent:actions"]
             eq_refl eq_refl Ht).
Defined.

(** X16: a [scope] claim that is missing or not a string grants nothing:
    [require_scope] answers 401 and does not run the handler. *)
Theorem require_scope_no_string_scope req (h : Event -> list call * Resp) ev kv :
  get_claims_from_event ev = inr (JObj kv) ->
  (forall s, assoc "scope" kv <> Some (JStr s)) ->
  require_scope req h ev = ([], Respond (unauthorized (msg_insufficient_scope req))).
Proof.
  intros Hc Hs. unfold require_scope. rewrite Hc. simpl dict_get.
  destruct (assoc "scope" kv) as [v|] eqn:E; simpl; [|reflexivity].
  destruct v; try reflexivity. exfalso. now apply (Hs s).
Qed.

Lemma require_scope_no_string_scope_witness :
  require_scope "agent:actions" (fun _ => ([], ok JNull 200))
    (event_with [("sub", JStr "user-42"); ("scope", JArr [JStr "agent:actions"])] [])
  = ([], Respond (unauthorized (msg_insufficient_scope "agent:actions"))).
Proof.
  apply (require_scope_no_string_scope _ _ _
           [("sub", JStr "user-42"); ("scope", JArr [JStr "agent:actions"])]); [reflexivity|].
  intros s. discriminate.
Defined.

(** X17: the cashflow handler calls the repository only for a horizon that
    parses to an integer in [1, 365], and then once, for
    [max(2 * horizon, 60)] days; otherwise it answers 400 or 500 without
    reading. *)
Theorem cashflow_handler_reads_only_valid_horizon (r : Repo) (ev : Event) :
  (fst (cashflow_handler r ev) = [] /\
   (statusCode (snd (cashflow_handler r ev)) = 400 \/ statusCode (snd (cashflow_handler r ev)) = 500)%Z)
  \/ exists u hv h,
       log_user ev = inr u /\ dict_get (query_params ev) "horizon" (JStr "30") = inr hv /\
       py_int_json hv = inr h /\ (1 <= h <= 365)%Z /\
       fst (cashflow_handler r ev) = [CallGetSales (Z.max (h * 2) 60)].
Proof.
  unfold cashflow_handler.
  destruct (log_user ev) as [e|u] eqn:Hu; [left; simpl; auto|].
  destruct (dict_get (query_params ev) "horizon" (JStr "30")) as [e|hv] eqn:Hq;
    [left; simpl; auto|].
  destruct (py_int_json hv) as [[| | |m]|h] eqn:Hi; try (left; simpl; auto; fail).
  destruct (Z.leb_spec h 0); [left; simpl; auto|].
  destruct (Z.ltb_spec 365 h); [left; simpl; auto|].
  right. exists u, hv, h. repeat split; try assumption; try lia.
  pose proof (forecast_calls h r) as Hc.
  destruct (run r (forecast_execute h)) as [tr o]. exact Hc.
Qed.

(** X18: for a valid horizon the cashflow handler reads [max(2 * horizon,
    60)] days once and answers 200 with the forecast, 400 when there is no
    sales data or the repository raises [ValueError], and 500 "Failed to
    forecast cashflow" on any other repository error. *)
Theorem cashflow_handler_valid_horizon (r : Repo) (ev : Event) u hv h :
  log_user ev = inr u -> dict_get (query_params ev) "horizon" (JStr "30") = inr hv ->
  py_int_json hv = inr h -> (1 <= h <= 365)%Z ->
  cashflow_handler r ev
  = ([CallGetSales (Z.max (h * 2) 60)],
     match get_sales_series r (Z.max (h * 2) 60) with
     | inl (ValueError m) => bad_request m
     | inl (RepoError _) => server_error msg_cashflow_failed
     | inr [] => bad_request msg_no_history
     | inr s =>
         ok (forecast_json
               {| forecast_days := h;
                  average_daily_cashflow := round2 (mean (map amount s));
                  total_forecast := round2 (mean (map amount s) * inject_Z h);
                  historical_period_days := Z.of_nat (List.length s) |}) 200
     end).
Proof.
  intros Hu Hq Hi Hh. unfold cashflow_handler. rewrite Hu, Hq, Hi.
  replace (h <=? 0)%Z with false by (symmetry; apply Z.leb_gt; lia).
  replace (365 <? h)%Z with false by (symmetry; apply Z.ltb_ge; lia).
  destruct (get_sales_series r (Z.max (h * 2) 60)) as [e|[|x s]] eqn:E.
  - rewrite (forecast_run_error _ _ _ E). now destruct e.
  - now rewrite (forecast_run_empty _ _ E).
  - rewrite (forecast_run_ok _ _ _ E) by discriminate. reflexivity.
Qed.

Lemma cashflow_handler_valid_horizon_witness :
  cashflow_handler (dynamo_repo rt_sample table_sample) cashflow_event_sample
  = ([CallGetSales 60],
     ok (forecast_json {| forecast_days := 7; average_daily_cashflow := round2 (mean [120; 80]);
                          total_forecast := round2 (mean [120; 80] * inject_Z 7);
                          historical_period_days := 2 |}) 200).
Proof.
  rewrite (cashflow_handler_valid_horizon _ _ (JStr "user-42") (JStr "7") 7);
    [| reflexivity | reflexivity | reflexivity | lia].
  vm_compute. reflexivity.
Defined.



(** X20: the limit [list_actions] passes to the repository is
    [min(int(limit), 100)], between 1 and 100, so at most 100 actions are
    listed. *)
Theorem list_actions_limit_range ev n :
  list_actions_limit ev = inr n ->
  (1 <= n <= 100)%Z /\
  (exists u hv k, log_user ev = inr u /\ dict_get (query_params ev) "limit" (JStr "50") = inr hv /\
                  py_int_json hv = inr k /\ n = Z.min k 100) /\
  (forall t l, dynamo_list_agent_actions t n = inr l -> (List.length l <= 100)%nat).
Proof.
  unfold list_actions_limit.
  destruct (log_user ev) as [e|u] eqn:Hu; [discriminate|].
  destruct (dict_get (query_params ev) "limit" (JStr "50")) as [e|hv] eqn:Hq; [discriminate|].
  destruct (py_int_json hv) as [[| | |m]|k] eqn:Hi; try discriminate.
  destruct (Z.leb_spec k 0); [discriminate|].
  assert (Hlen : forall n' t l, (1 <= n' <= 100)%Z ->
            dynamo_list_agent_actions t n' = inr l -> (List.length l <= 100)%nat).
  { intros n' t l Hn' Hl. apply list_actions_inv in Hl as (_ & _ & ->).
    pose proof (firstn_le_length (Z.to_nat n')
                  (sort_by_ts_desc (map action_view (filter (fun it => prefix "ACTION#" (pk it))
                     (firstn (Z.to_nat (n' * 2)) (scan_page t)))))). lia. }
  destruct (Z.ltb_spec 100 k); intros Hr; inversion Hr; subst n.
  - split; [lia|]. split; [|intros t l; apply Hlen; lia].
    exists u, hv, k. repeat split; try assumption. lia.
  - split; [lia|]. split; [|intros t l; apply Hlen; lia].
    exists u, hv, k. repeat split; try assumption. lia.
Qed.

Lemma list_actions_limit_range_witness :
  list_actions_limit (limit_event "500") = inr 100%Z /\ (1 <= 100 <= 100)%Z.
Proof.
  split; [reflexivity|].
  exact (proj1 (list_actions_limit_range (limit_event "500") 100 eq_refl)).
Defined.

(** X21: a reminder request without [remind_date] (or with an empty or
    blank one) stores today's date in the payload, while the 201 response
    shows an empty [remind_date]. *)
Theorem reminder_handler_default_date json_loads request_error r env ev kv sc u s b rq id :
  get_claims_from_event ev = inr (JObj kv) ->
  assoc "scope" kv = Some (JStr sc) -> In "agent:actions" (py_split sc) ->
  assoc "sub" kv = Some (JStr u) -> is_blank u = false ->
  assoc "body" ev = Some (JStr s) -> json_loads s = inr b ->
  parse_reminder_request b = Some rq ->
  (rq_remind_date rq = None \/ rq_remind_date rq = Some "") ->
  fromisoformat env (date_isoformat (utc_today env)) = true ->
  (forall a pl pb, create_agent_action r a pl pb = inr id) ->
  exists pl,
    reminder_handler json_loads request_error r env ev
    = ([CallCreateAction "collection_reminder" pl (strip u)],
       Respond (ok (reminder_json id rq u) 201)) /\
    assoc "remind_date" pl = Some (date_isoformat (utc_today env)) /\
    dict_get (reminder_json id rq u) "remind_date" JNull = inr (JStr "").
Proof.
  intros Hc Hsc Hin Hsub Hu Hbody Hj Hp Hd Hiso Hr.
  unfold reminder_handler, require_scope. rewrite Hc. unfold dict_get at 1. rewrite Hsc.
  unfold scope_list.
  replace (existsb (String.eqb "agent:actions") (py_split sc)) with true
    by (symmetry; apply existsb_exists; exists "agent:actions"; split;
        [exact Hin | apply String.eqb_refl]).
  unfold reminder_handler_body. rewrite Hc. unfold dict_get at 1. rewrite Hsub.
  cbv zeta. rewrite Hbody, Hj, Hp.
  unfold reminder_execute. rewrite (parse_reminder_customer_nonblank _ _ Hp), Hu.
  replace (default_remind_date env (rq_remind_date rq)) with (date_isoformat (utc_today env))
    by (destruct Hd as [-> | ->]; reflexivity).
  rewrite Hiso. simpl negb. cbv iota. rewrite run_catch_reraise. simpl run. rewrite Hr.
  eexists. split; [reflexivity|]. split.
  - destruct (rq_invoice_id rq) as [i|]; [destruct (i =? "")|]; reflexivity.
  - unfold reminder_json. destruct Hd as [-> | ->]; reflexivity.
Qed.

Lemma reminder_handler_default_date_witness :
  exists pl,
    reminder_handler json_loads_sample request_error_sample (dynamo_repo rt_sample table_sample)
      env_20251020 (reminder_event body_c1)
    = ([CallCreateAction "collection_reminder" pl (strip "user-42")],
       Respond (ok (reminder_json (rt_uuid rt_sample)
                      {| rq_customer_id := "C1"; rq_invoice_id := None; rq_remind_date := None |}
                      "user-42") 201)) /\
    assoc "remind_date" pl = Some (date_isoformat (utc_today env_20251020)) /\
    dict_get (reminder_json (rt_uuid rt_sample)
                {| rq_customer_id := "C1"; rq_invoice_id := None; rq_remind_date := None |}
                "user-42") "remind_date" JNull = inr (JStr "").
Proof.
  apply (reminder_handler_default_date json_loads_sample request_error_sample
           (dynamo_repo rt_sample table_sample) env_20251020 (reminder_event body_c1)
           claims_sample "openid agent:actions" "user-42" body_c1
           (JObj [("customer_id", JStr " C1 ")])).
  all: try reflexivity.
  - vm_compute. auto.
  - now left.
Defined.

(** X22: a body that [json.loads] rejects is answered 400 with the
    decoder's message, without a repository call. *)
Theorem reminder_handler_invalid_json json_loads request_error r env ev kv sc s msg :
  get_claims_from_event ev = inr (JObj kv) ->
  assoc "scope" kv = Some (JStr sc) -> In "agent:actions" (py_split sc) ->
  assoc "body" ev = Some (JStr s) -> json_loads s = inl msg ->
  reminder_handler json_loads request_error r env ev = ([], Respond (bad_request msg)).
Proof.
  intros Hc Hsc Hin Hbody Hj.
  unfold reminder_handler, require_scope. rewrite Hc. unfold dict_get at 1. rewrite Hsc.
  unfold scope_list.
  replace (existsb (String.eqb "agent:actions") (py_split sc)) with true
    by (symmetry; apply existsb_exists; exists "agent:actions"; split;
        [exact Hin | apply String.eqb_refl]).
  unfold reminder_handler_body. rewrite Hc. unfold dict_get at 1.
  cbv zeta. rewrite Hbody, Hj. reflexivity.
Qed.

Lemma reminder_handler_invalid_json_witness :
  reminder_handler json_loads_sample request_error_sample (dynamo_repo rt_sample table_sample)
    env_20251020 (reminder_event "{customer_id: C1}")
  = ([], Respond (bad_request "Expecting value: line 1 column 1 (char 0)")).
Proof.
  apply (reminder_handler_invalid_json _ _ _ _ _ claims_sample "openid agent:actions"
           "{customer_id: C1}").
  all: try reflexivity.
  vm_compute. auto.
Defined.

(** X23: a decoded body that [CreateReminderRequest] rejects (not an
    object, no string [customer_id], a blank one, a non-string optional
    field) is answered 400 "Invalid request body: ..." without a
    repository call. *)
Theorem reminder_handler_invalid_body json_loads request_error r env ev kv sc s b :
  get_claims_from_event ev = inr (JObj kv) ->
  assoc "scope" kv = Some (JStr sc) -> In "agent:actions" (py_split sc) ->
  assoc "body" ev = Some (JStr s) -> json_loads s = inr b ->
  parse_reminder_request b = None ->
  reminder_handler json_loads request_error r env ev
  = ([], Respond (bad_request ("Invalid request body: " ++ request_error b))).
Proof.
  intros Hc Hsc Hin Hbody Hj Hp.
  unfold reminder_handler, require_scope. rewrite Hc. unfold dict_get at 1. rewrite Hsc.
  unfold scope_list.
  replace (existsb (String.eqb "agent:actions") (py_split sc)) with true
    by (symmetry; apply existsb_exists; exists "agent:actions"; split;
        [exact Hin | apply String.eqb_refl]).
  unfold reminder_handler_body. rewrite Hc. unfold dict_get at 1.
  cbv zeta. rewrite Hbody, Hj, Hp. reflexivity.
Qed.

Lemma reminder_handler_invalid_body_witness :
  reminder_handler json_loads_sample request_error_sample (dynamo_repo rt_sample table_sample)
    env_20251020 (reminder_event "{}")
  = ([], Respond (bad_request ("Invalid request body: " ++ request_error_sample (JObj [])))).
Proof.
  apply (reminder_handler_invalid_body _ _ _ _ _ claims_sample "openid agent:actions" "{}").
  all: try reflexivity.
  vm_compute. auto.
Defined.
